(** * StickIt task board (app.py): a shallow embedding and its properties

    The program is one Streamlit script.  Every interaction of the user
    runs the script from its first line to its last: it loads the task
    list from [tasks.json], lets the first handler whose widget was used
    change the list, writes the list back and asks for a rerun.

    Modelling decisions, all of them about the libraries the script calls
    and none about the script itself:

    - a task is the Python dict built by [add_task]; its eight keys are the
      fields of the record [Task];
    - [datetime] values are counted in microseconds, [date] values in days;
      the text [str(d)] of a date is kept as [ISO d], which
      [pd.to_datetime] reads back as midnight of [d];
    - the float returned by [datetime.timestamp()] is identified with its
      microsecond count;
    - the content of [tasks.json] is seen through [json.load]: a text is
      either rejected or decoded to a list of tasks, and [json.dump] writes
      a text that decodes to the list it was given; texts that decode to
      anything else than an array of such objects are not modelled;
    - a keyed Streamlit widget returns the value the front end holds for
      its key, or its default, and a key used twice in one run raises
      [DuplicateWidgetID]; one run of the script is one step of the model,
      and the rerun asked for by [st.rerun()] is the next step;
    - static page text (titles, captions, style sheets) and the icons in
      front of the messages are left out. *)

From Stdlib Require Import ZArith.
From Stdlib.Strings Require Import Byte.
From stdpp Require Import gmap strings list.

Open Scope Z_scope.

(** ** Time *)

Definition datetime := Z.
Definition date := Z.

Definition us_per_day : Z := 86400000000.

(** [datetime.date()] *)
Definition datetime_date (t : datetime) : date := t / us_per_day.

(** midnight at the start of day [d] *)
Definition midnight (d : date) : datetime := d * us_per_day.

(** [timedelta(days=n)] *)
Definition timedelta_days (n : Z) : Z := n * us_per_day.

(** [datetime.timestamp()] *)
Definition timestamp (t : datetime) : Z := t.

(** The text of a date as [str] prints it and [pd.to_datetime] reads it. *)
Inductive isodate := ISO (d : date).

Definition str_date (d : date) : isodate := ISO d.

Definition to_datetime (s : isodate) : datetime :=
  match s with ISO d => midnight d end.

(** ** Tasks *)

Record Task := {
  id : Z;
  name : string;
  description : string;
  deadline : isodate;
  created : isodate;
  status : string;
  priority : string;
  attachment : string
}.

#[global] Instance isodate_eq_dec : EqDecision isodate.
Proof. solve_decision. Defined.

#[global] Instance Task_eq_dec : EqDecision Task.
Proof. solve_decision. Defined.

(** Item assignments [t["name"] = v] and the like. *)
Definition set_name (v : string) (t : Task) : Task :=
  {| id := id t; name := v; description := description t;
     deadline := deadline t; created := created t; status := status t;
     priority := priority t; attachment := attachment t |}.

Definition set_description (v : string) (t : Task) : Task :=
  {| id := id t; name := name t; description := v;
     deadline := deadline t; created := created t; status := status t;
     priority := priority t; attachment := attachment t |}.

Definition set_deadline (v : isodate) (t : Task) : Task :=
  {| id := id t; name := name t; description := description t;
     deadline := v; created := created t; status := status t;
     priority := priority t; attachment := attachment t |}.

Definition set_priority (v : string) (t : Task) : Task :=
  {| id := id t; name := name t; description := description t;
     deadline := deadline t; created := created t; status := status t;
     priority := v; attachment := attachment t |}.

Definition set_status (v : string) (t : Task) : Task :=
  {| id := id t; name := name t; description := description t;
     deadline := deadline t; created := created t; status := v;
     priority := priority t; attachment := attachment t |}.

Definition status_names : list string := ["To Do"; "In Progress"; "Done"].
Definition priority_names : list string := ["Low"; "Medium"; "High"].

(** ** What the script can see and change *)

(** [tasks.json] as [json.load] sees it. *)
Inductive json_text :=
| Malformed
| Encodes (ts : list Task).

Inductive exn :=
| JSONDecodeError
| ValueError
| DuplicateWidgetID.

(** What ends a run before its last line: an exception, or [st.rerun()]. *)
Inductive stop :=
| Raised (e : exn)
| Rerun.

(** Elements the run puts on the page. *)
Inductive element :=
| Success (msg : string)
| Warning (msg : string)
| Error (msg : string)
| Info (msg : string)
| Calendar (events : list (string * isodate * isodate * string))
| BarChart (counts : gmap string nat)
| Card (color : string) (t : Task)
| Dataframe (rows : list (string * datetime * string)).

Record state := {
  tasks_json : option json_text;          (* the file tasks.json *)
  assets : gmap string (list byte);       (* uploaded files, by path *)
  reads : nat;                            (* clock readings taken so far *)
  registry : gset (string * Z);           (* widget keys used in this run *)
  page : list element                     (* elements shown, oldest first *)
}.

Definition with_tasks_json (f : option json_text) (s : state) : state :=
  {| tasks_json := f; assets := assets s; reads := reads s;
     registry := registry s; page := page s |}.

Definition with_asset (path : string) (b : list byte) (s : state) : state :=
  {| tasks_json := tasks_json s; assets := <[path := b]> (assets s);
     reads := reads s; registry := registry s; page := page s |}.

Definition with_read (s : state) : state :=
  {| tasks_json := tasks_json s; assets := assets s; reads := S (reads s);
     registry := registry s; page := page s |}.

Definition with_key (k : string * Z) (s : state) : state :=
  {| tasks_json := tasks_json s; assets := assets s; reads := reads s;
     registry := {[k]} ∪ registry s; page := page s |}.

Definition with_element (e : element) (s : state) : state :=
  {| tasks_json := tasks_json s; assets := assets s; reads := reads s;
     registry := registry s; page := page s ++ [e] |}.

(** A fresh run keeps the files and the clock, and starts an empty page. *)
Definition fresh (s : state) : state :=
  {| tasks_json := tasks_json s; assets := assets s; reads := reads s;
     registry := ∅; page := [] |}.

(** ** The monad of the script: state, exceptions and rerun *)

Inductive outcome (A : Type) :=
| Ret (a : A) (s : state)
| Halt (h : stop) (s : state).
Arguments Ret {A} a s.
Arguments Halt {A} h s.

Definition M (A : Type) := state -> outcome A.

Definition ret {A} (a : A) : M A := fun s => Ret a s.

Definition bind {A B} (m : M A) (k : A -> M B) : M B :=
  fun s => match m s with
           | Ret a s' => k a s'
           | Halt h s' => Halt h s'
           end.

Definition raise {A} (e : exn) : M A := fun s => Halt (Raised e) s.

#[global] Instance M_ret : MRet M := @ret.
#[global] Instance M_bind : MBind M := fun A B k m => bind m k.

Definition final_state {A} (o : outcome A) : state :=
  match o with Ret _ s => s | Halt _ s => s end.

Definition stopped {A} (o : outcome A) : option stop :=
  match o with Ret _ _ => None | Halt h _ => Some h end.

(** [st.rerun()] *)
Definition st_rerun {A} : M A := fun s => Halt Rerun s.

Definition emit (e : element) : M unit := fun s => Ret tt (with_element e s).

Definition st_success (msg : string) : M unit := emit (Success msg).
Definition st_warning (msg : string) : M unit := emit (Warning msg).
Definition st_error (msg : string) : M unit := emit (Error msg).
Definition st_info (msg : string) : M unit := emit (Info msg).

(** ** Helper functions of the script *)

(** [load_tasks], lines 27-31. *)
Definition load_tasks : M (list Task) :=
  fun s => match tasks_json s with
           | Some Malformed => Halt (Raised JSONDecodeError) s
           | Some (Encodes ts) => Ret ts s
           | None => Ret [] s
           end.

(** [save_tasks], lines 33-35. *)
Definition save_tasks (tasks : list Task) : M unit :=
  fun s => Ret tt (with_tasks_json (Some (Encodes tasks)) s).

(** [color_by_priority], lines 51-52. *)
Definition color_by_priority (p : string) : string :=
  let colors : gmap string string :=
    <["High" := "#ff4b4b"]> (<["Medium" := "#ffa500"]> (<["Low" := "#4bb543"]> ∅)) in
  default "#d3d3d3" (colors !! p).

(** ** Python and pandas helpers *)

(** [l.index(x)]: the first position of [x], [ValueError] when absent. *)
Fixpoint list_index (x : string) (l : list string) : option nat :=
  match l with
  | [] => None
  | y :: l' => if decide (y = x) then Some 0%nat else S <$> list_index x l'
  end.

Definition index_of (x : string) (l : list string) : M nat :=
  match list_index x l with
  | Some i => mret i
  | None => raise ValueError
  end.

(** [l.remove(x)]: drops the first element equal to [x], [ValueError] when
    there is none. *)
Fixpoint list_remove (x : Task) (l : list Task) : option (list Task) :=
  match l with
  | [] => None
  | y :: l' => if decide (y = x) then Some l' else (y ::.) <$> list_remove x l'
  end.

Definition remove_task (x : Task) (l : list Task) : M (list Task) :=
  match list_remove x l with
  | Some l' => mret l'
  | None => raise ValueError
  end.

(** [for x in l: body(x)] *)
Fixpoint for_each {A} (l : list A) (body : A -> M unit) : M unit :=
  match l with
  | [] => mret tt
  | x :: l' => body x;; for_each l' body
  end.

(** The elements of a list with their positions: the loop variable [t] of
    [for t in tasks] is the dict stored at that position of the list, and
    an assignment to it is an update of the list there. *)
Fixpoint enumerate_from {A} (i : nat) (l : list A) : list (nat * A) :=
  match l with
  | [] => []
  | x :: l' => (i, x) :: enumerate_from (S i) l'
  end.

(** [Series.value_counts()], as a map from value to count. *)
Definition value_counts (col : list string) : gmap string nat :=
  foldr (λ v m, <[v := S (default 0%nat (m !! v))]> m) ∅ col.

(** ** The front end *)

Record upload := { file_name : string; file_bytes : list byte }.

Inductive wval :=
| WBool (b : bool)
| WText (s : string)
| WDate (d : date)
| WIndex (i : nat).

(** The widgets of the sidebar form have no key. *)
Record form := {
  form_name : string;
  form_desc : string;
  form_deadline : date;
  form_priority : nat;
  form_file : option upload;
  form_submitted : bool
}.

(** The widgets of the board are keyed by a prefix and the id of their
    task, [f"edit_{t['id']}"] and so on. *)
Record frontend := {
  task_form : form;
  widgets : gmap (string * Z) wval
}.

(** A select box returns one of its options: the one chosen in the front
    end, or the one at [index]. *)
Definition select (options : list string) (index : nat) (choice : option nat)
    : string :=
  let i := match choice with
           | Some i => if decide (i < length options)%nat then i else index
           | None => index
           end in
  default "" (options !! i).

(** Streamlit records the key of every widget it creates and refuses a
    key it has already seen in the run. *)
Definition register (k : string * Z) : M unit :=
  fun s => if decide (k ∈ registry s)
           then Halt (Raised DuplicateWidgetID) s
           else Ret tt (with_key k s).

Section Script.

(** The clock: [tick k] is what the [k]-th call of [datetime.now()]
    returns. *)
Variable tick : nat -> datetime.

(** What the front end holds when the run starts. *)
Variable ui : frontend.

Definition datetime_now : M datetime :=
  fun s => Ret (tick (reads s)) (with_read s).

Definition st_checkbox (k : string * Z) : M bool :=
  register k;;
  mret (match widgets ui !! k with Some (WBool b) => b | _ => false end).

Definition st_button (k : string * Z) : M bool :=
  register k;;
  mret (match widgets ui !! k with Some (WBool b) => b | _ => false end).

Definition st_text_input (value : string) (k : string * Z) : M string :=
  register k;;
  mret (match widgets ui !! k with Some (WText v) => v | _ => value end).

Definition st_text_area (value : string) (k : string * Z) : M string :=
  register k;;
  mret (match widgets ui !! k with Some (WText v) => v | _ => value end).

Definition st_date_input (value : date) (k : string * Z) : M date :=
  register k;;
  mret (match widgets ui !! k with Some (WDate v) => v | _ => value end).

Definition st_selectbox (options : list string) (index : nat)
    (k : string * Z) : M string :=
  register k;;
  mret (select options index
          (match widgets ui !! k with Some (WIndex i) => Some i | _ => None end)).

(** [add_task], lines 37-49.  The global list [tasks] is passed in and the
    list after [tasks.append(task)] is returned. *)
Definition add_task (name description : string) (deadline : date)
    (priority attachment_path : string) (tasks : list Task) : M (list Task) :=
  now1 ← datetime_now;
  now2 ← datetime_now;
  let task := {| id := timestamp now1;
                 name := name;
                 description := description;
                 deadline := str_date deadline;
                 created := str_date (datetime_date now2);
                 status := "To Do";
                 priority := priority;
                 attachment := attachment_path |} in
  let tasks := tasks ++ [task] in
  save_tasks tasks;;
  mret tasks.

(** [open(path, "wb").write(b)] *)
Definition write_file (path : string) (b : list byte) : M unit :=
  fun s => Ret tt (with_asset path b s).

(** The sidebar form, lines 59-78. *)
Definition sidebar (tasks : list Task) : M unit :=
  let f := task_form ui in
  let name_ := form_name f in
  let desc := form_desc f in
  today ← datetime_now;
  let deadline_ := form_deadline f in
  let priority_ := select priority_names 0 (Some (form_priority f)) in
  let file := form_file f in
  let submitted := form_submitted f in
  if submitted && bool_decide (name_ ≠ "") then
    filepath ← match file with
               | Some up =>
                   let filepath := "assets/" +:+ file_name up in
                   write_file filepath (file_bytes up);;
                   mret filepath
               | None => mret ""
               end;
    add_task name_ desc deadline_ priority_ filepath tasks;;
    st_success "Task added!";;
    st_rerun
  else if submitted then
    st_warning "Task name required."
  else mret tt.

(** The calendar, lines 86-90, and the status chart, lines 94-100. *)
Definition calendar_events (tasks : list Task)
    : list (string * isodate * isodate * string) :=
  (λ t, (name t, deadline t, deadline t, color_by_priority (priority t)))
    <$> tasks.

Definition metrics (df : list Task) : M unit :=
  if bool_decide (df ≠ []) then
    emit (BarChart (value_counts (status <$> df)))
  else
    st_info "No tasks available yet. Add one from the sidebar.".

(** One card of the board with its controls, lines 112-163.  [t] is the
    element of [tasks] at position [i]. *)
Definition render_task (tasks : list Task) (i : nat) (column : string)
    (t : Task) : M unit :=
  let color := color_by_priority (priority t) in
  emit (Card color t);;
  let key_prefix := id t in
  edit_mode ← st_checkbox ("edit", key_prefix);
  (if (edit_mode : bool) then
     new_name ← st_text_input (name t) ("name", key_prefix);
     new_desc ← st_text_area (description t) ("desc", key_prefix);
     new_deadline ←
       st_date_input (datetime_date (to_datetime (deadline t)))
         ("deadline", key_prefix);
     index ← index_of (priority t) priority_names;
     new_priority ← st_selectbox priority_names index ("priority", key_prefix);
     save ← st_button ("save", key_prefix);
     if (save : bool) then
       let t' := set_priority new_priority
                   (set_deadline (str_date new_deadline)
                      (set_description new_desc (set_name new_name t))) in
       save_tasks (<[i := t']> tasks);;
       st_success "Task updated!";;
       st_rerun
     else mret tt
   else mret tt);;
  index ← index_of column status_names;
  new_status ← st_selectbox status_names index ("status", key_prefix);
  (if bool_decide (new_status ≠ column) then
     save_tasks (<[i := set_status new_status t]> tasks);;
     st_rerun
   else mret tt);;
  delete_ ← st_button ("delete", key_prefix);
  if (delete_ : bool) then
    tasks' ← remove_task t tasks;
    save_tasks tasks';;
    st_success "Task deleted!";;
    st_rerun
  else mret tt.

(** The board, lines 107-163. *)
Definition board_column (tasks : list Task) (column : string) : M unit :=
  for_each (enumerate_from 0 tasks) (λ '(i, t),
    if bool_decide (status t = column) then render_task tasks i column t
    else mret tt).

Definition board (tasks : list Task) : M unit :=
  for_each status_names (board_column tasks).

(** The two deadline lists, lines 167-178. *)
Definition upcoming (now1 now2 : datetime) (df : list Task) : list Task :=
  filter (λ t, to_datetime (deadline t) > now1
               ∧ to_datetime (deadline t) <= now2 + timedelta_days 3) df.

Definition overdue (now3 : datetime) (df : list Task) : list Task :=
  filter (λ t, to_datetime (deadline t) < now3) df.

Definition rows (df : list Task) : list (string * datetime * string) :=
  (λ t, (name t, to_datetime (deadline t), status t)) <$> df.

Definition deadline_warnings (df : list Task) : M unit :=
  if bool_decide (df ≠ []) then
    now1 ← datetime_now;
    now2 ← datetime_now;
    let upcoming_ := upcoming now1 now2 df in
    now3 ← datetime_now;
    let overdue_ := overdue now3 df in
    (if bool_decide (upcoming_ ≠ []) then
       st_warning "Tasks due soon";;
       emit (Dataframe (rows upcoming_))
     else mret tt);;
    (if bool_decide (overdue_ ≠ []) then
       st_error "Overdue Tasks";;
       emit (Dataframe (rows overdue_))
     else mret tt)
  else mret tt.

(** The script, top to bottom. *)
Definition app : M unit :=
  tasks ← load_tasks;
  sidebar tasks;;
  emit (Calendar (calendar_events tasks));;
  let df := tasks in
  metrics df;;
  board tasks;;
  deadline_warnings df.

(** One run: the script on a fresh page. *)
Definition run (s : state) : outcome unit := app (fresh s).

End Script.

(** ** firebase_utils.py

    [get_firestore] is embedded with the parts of [firebase_admin] it
    calls: [_apps] is the registry of initialised apps by name,
    [credentials.Certificate] reads a service-account file and raises
    [IOError] when it cannot be read and [ValueError] when it is not a
    certificate, [initialize_app] registers the default app and raises
    [ValueError] when there is one already, and [firestore.client] is the
    client of the default app and raises [ValueError] without one.  A
    certificate is named by its text, and a client by the certificate of
    its app. *)

Inductive fb_error :=
| IOError
| Value_Error.

Record firebase := {
  apps : gmap string string;                  (* firebase_admin._apps *)
  credentials_file : option (option string)   (* firebase_credentials.json:
                                                 absent, not a certificate,
                                                 or a certificate *)
}.

Definition default_app_name : string := "[DEFAULT]".

Definition with_apps (a : gmap string string) (fb : firebase) : firebase :=
  {| apps := a; credentials_file := credentials_file fb |}.

Definition with_credentials_file (f : option (option string)) (fb : firebase)
    : firebase :=
  {| apps := apps fb; credentials_file := f |}.

(** [credentials.Certificate("firebase_credentials.json")] *)
Definition Certificate (fb : firebase) : fb_error + string :=
  match credentials_file fb with
  | None => inl IOError
  | Some None => inl Value_Error
  | Some (Some cert) => inr cert
  end.

(** [firebase_admin.initialize_app(cred)] *)
Definition initialize_app (cred : string) (fb : firebase)
    : fb_error + firebase :=
  match apps fb !! default_app_name with
  | Some _ => inl Value_Error
  | None => inr (with_apps (<[default_app_name := cred]> (apps fb)) fb)
  end.

(** [firestore.client()] *)
Definition client (fb : firebase) : fb_error + string :=
  match apps fb !! default_app_name with
  | Some cred => inr cred
  | None => inl Value_Error
  end.

(** [get_firestore], lines 4-8: the result, and the registry after the
    call. *)
Definition get_firestore (fb : firebase) : (fb_error + string) * firebase :=
  if decide (apps fb = ∅) then
    match Certificate fb with
    | inl e => (inl e, fb)
    | inr cred =>
        match initialize_app cred fb with
        | inl e => (inl e, fb)
        | inr fb' => (client fb', fb')
        end
    end
  else (client fb, fb).

(** ** The user's actions, as what the front end holds when the run starts *)

Definition idle_form : form :=
  {| form_name := ""; form_desc := ""; form_deadline := 0;
     form_priority := 0; form_file := None; form_submitted := false |}.

(** Nothing was touched. *)
Definition idle : frontend := {| task_form := idle_form; widgets := ∅ |}.

(** The sidebar form was filled in and "Create Task" pressed; [p] is the
    position chosen in the priority box. *)
Definition create (n d : string) (dl : date) (p : nat) (f : option upload)
    : frontend :=
  {| task_form := {| form_name := n; form_desc := d; form_deadline := dl;
                     form_priority := p; form_file := f;
                     form_submitted := true |};
     widgets := ∅ |}.

Definition put (k : string * Z) (o : option wval)
    (m : gmap (string * Z) wval) : gmap (string * Z) wval :=
  match o with Some v => <[k := v]> m | None => m end.

(** The card of task [i] is in edit mode, the fields given were typed in
    (the others left as shown) and "Save Changes" pressed. *)
Definition update (i : Z) (n d : option string) (dl : option date)
    (p : option nat) : frontend :=
  {| task_form := idle_form;
     widgets :=
       <[("edit", i) := WBool true]> (<[("save", i) := WBool true]>
         (put ("name", i) (WText <$> n) (put ("desc", i) (WText <$> d)
           (put ("deadline", i) (WDate <$> dl)
             (put ("priority", i) (WIndex <$> p) ∅))))) |}.

(** Priority is changed through the edit form of the card. *)
Definition setPriority (i : Z) (p : nat) : frontend :=
  update i None None None (Some p).

(** Position [k] was chosen in the "Update Status" box of task [i]. *)
Definition setStatus (i : Z) (k : nat) : frontend :=
  {| task_form := idle_form; widgets := {[ ("status", i) := WIndex k ]} |}.

(** "Delete Task" was pressed on the card of task [i]. *)
Definition delete_task (i : Z) : frontend :=
  {| task_form := idle_form; widgets := {[ ("delete", i) := WBool true ]} |}.

(** The collection a state holds, as [load_tasks] would return it. *)
Definition stored (s : state) : option (list Task) :=
  match tasks_json s with
  | None => Some []
  | Some (Encodes ts) => Some ts
  | Some Malformed => None
  end.

Definition collection (s : state) : list Task := default [] (stored s).

Definition initial : state :=
  {| tasks_json := None; assets := ∅; reads := 0; registry := ∅; page := [] |}.

(** ** The vocabulary of the properties *)

(** The files a state holds. *)
Definition files (s : state) : option json_text * gmap string (list byte) :=
  (tasks_json s, assets s).

(** Where the form's upload is stored, [""] without one. *)
Definition upload_path (f : form) : string :=
  match form_file f with
  | Some up => "assets/" +:+ file_name up
  | None => ""
  end.

Definition uploaded (f : form) (a : gmap string (list byte))
    : gmap string (list byte) :=
  match form_file f with
  | Some up => <["assets/" +:+ file_name up := file_bytes up]> a
  | None => a
  end.

(** The task a submitted form makes when the clock has been read [r]
    times before the run. *)
Definition new_task (tick : nat -> datetime) (f : form) (r : nat) : Task :=
  {| id := timestamp (tick (S r));
     name := form_name f;
     description := form_desc f;
     deadline := str_date (form_deadline f);
     created := str_date (datetime_date (tick (S (S r))));
     status := "To Do";
     priority := select priority_names 0 (Some (form_priority f));
     attachment := upload_path f |}.

(** What the edit form of a card holds: the value typed in, or the value
    the form was opened with. *)
Definition edited (ui : frontend) (t : Task) : Task :=
  let new_name := match widgets ui !! ("name", id t) with
                  | Some (WText x) => x | _ => name t end in
  let new_desc := match widgets ui !! ("desc", id t) with
                  | Some (WText x) => x | _ => description t end in
  let new_deadline := match widgets ui !! ("deadline", id t) with
                      | Some (WDate x) => str_date x | _ => deadline t end in
  let new_priority := match widgets ui !! ("priority", id t) with
                      | Some (WIndex k) => default (priority t) (priority_names !! k)
                      | _ => priority t end in
  set_priority new_priority
    (set_deadline new_deadline (set_description new_desc (set_name new_name t))).

(** The state after a card whose edit box is not ticked was shown. *)
Definition shown (t : Task) (s : state) : state :=
  with_key ("delete", id t) (with_key ("status", id t)
    (with_key ("edit", id t)
       (with_element (Card (color_by_priority (priority t)) t) s))).

(** No widget of task [i] was used. *)
Definition untouched (ui : frontend) (i : Z) : Prop :=
  ∀ pfx, widgets ui !! (pfx, i) = None.

(** The changes the board can make to the loaded list [ts]: one card is
    saved from its edit form, one card gets another status, or one card is
    deleted; each needs its widget to have been used. *)
Inductive step (ui : frontend) (ts : list Task) : list Task -> Prop :=
| step_edit i t n d dl p :
    ts !! i = Some t ->
    widgets ui !! ("edit", id t) = Some (WBool true) ->
    widgets ui !! ("save", id t) = Some (WBool true) ->
    n = name t ∨ widgets ui !! ("name", id t) = Some (WText n) ->
    p ∈ priority_names ->
    step ui ts (<[i := set_priority p (set_deadline dl
                         (set_description d (set_name n t)))]> ts)
| step_status i t k v :
    ts !! i = Some t ->
    widgets ui !! ("status", id t) = Some (WIndex k) ->
    status_names !! k = Some v ->
    v ≠ status t ->
    step ui ts (<[i := set_status v t]> ts)
| step_delete t ts' :
    t ∈ ts ->
    widgets ui !! ("delete", id t) = Some (WBool true) ->
    list_remove t ts = Some ts' ->
    step ui ts ts'.






(** *** Triples *)

(** [hoare P m Q E]: started in a state of [P], [m] returns in a state of
    [Q] or stops in a state of [E]. *)
Definition hoare {A} (P : state -> Prop) (m : M A)
    (Q : A -> state -> Prop) (E : stop -> state -> Prop) : Prop :=
  ∀ s, P s -> match m s with
              | Ret a s' => Q a s'
              | Halt h s' => E h s'
              end.

(** The files are [d0] as before, the page has only grown from [p0] and
    the clock has not gone back behind its [r0]-th reading. *)
Definition kept (d0 : option json_text * gmap string (list byte))
    (p0 : list element) (r0 : nat) (s : state) : Prop :=
  files s = d0 ∧ p0 `prefix_of` page s ∧ (r0 ≤ reads s)%nat.

(** A stop leaves the files as they were, unless it is the rerun that
    follows the saving of a changed list. *)
Definition changed (ui : frontend) (ts : list Task)
    (d0 : option json_text * gmap string (list byte))
    (p0 : list element) (r0 : nat) (h : stop) (s : state) : Prop :=
  p0 `prefix_of` page s ∧ (r0 ≤ reads s)%nat
  ∧ (files s = d0
     ∨ (h = Rerun ∧ assets s = d0.2
        ∧ ∃ ts', tasks_json s = Some (Encodes ts') ∧ step ui ts ts')).

(** All registered keys belong to ids of [X]. *)
Definition within (X : Z -> Prop) (s : state) : Prop :=
  ∀ k, k ∈ registry s -> X k.2.

(** The invariant of the board while the card of [target] is watched: [G]
    is what is known once that card was passed. *)
Definition inv (d0 : option json_text * gmap string (list byte))
    (target : Z) (G : Prop) (X : Z -> Prop) (s : state) : Prop :=
  files s = d0 ∧ within X s ∧ (X target -> G).

(** *** A small board *)

(** A clock that advances by one microsecond at every reading, and a board
    of two tasks. *)
Definition sample_tick (k : nat) : datetime := 1736500000000000 + Z.of_nat k.

Definition sample_tasks : list Task :=
  [ {| id := 1736400000000001; name := "Write spec"; description := "";
       deadline := ISO 20200; created := ISO 20097; status := "To Do";
       priority := "High"; attachment := "" |};
    {| id := 1736400000000002; name := "Review"; description := "second pass";
       deadline := ISO 20210; created := ISO 20097; status := "In Progress";
       priority := "Low"; attachment := "assets/notes.pdf" |} ].

Definition sample_state : state :=
  {| tasks_json := Some (Encodes sample_tasks); assets := ∅; reads := 0;
     registry := ∅; page := [] |}.

(** *** Sequences of runs, and what the board shows *)

(** The state after the runs of [uis], one after the other. *)
Definition runs (tick : nat -> datetime) (uis : list frontend) (s : state)
    : state :=
  foldl (λ s ui, final_state (run tick ui s)) s uis.

(** The cards of one column and of the whole board, in the order they are
    drawn. *)
Definition column_cards (tasks : list Task) (column : string) : list element :=
  (λ t, Card (color_by_priority (priority t)) t)
    <$> filter (λ t, status t = column) tasks.

Definition board_cards (tasks : list Task) : list element :=
  concat (column_cards tasks <$> status_names).

(** The tasks the board draws, in the order it draws them. *)
Definition shown_tasks (tasks : list Task) : list Task :=
  concat ((λ c, filter (λ t, status t = c) tasks) <$> status_names).

(** The registry holds keys of the ids of [R] only, and the key of the
    edit box of each of them. *)
Definition regs_of (R : list Z) (s : state) : Prop :=
  (∀ k, k ∈ registry s -> k.2 ∈ R) ∧ (∀ i, i ∈ R -> ("edit", i) ∈ registry s).

(** The ids of [L] are distinct and none is in [R]. *)
Definition fresh_ids (L : list Task) (R : list Z) : Prop :=
  NoDup (id <$> L) ∧ Forall (λ t, id t ∉ R) L.

#[global] Instance fresh_ids_dec L R : Decision (fresh_ids L R).
Proof. unfold fresh_ids. apply _. Defined.

(** The day of the deadline of a task. *)
Definition deadline_day (t : Task) : date :=
  match deadline t with ISO d => d end.

(** * Properties *)

(** ** Tactics *)

(** Solves [k ∉ registry s'] for a key of a task none of whose keys is in
    the registry of [s], [s'] being [s] with other keys of the task added. *)
Ltac fresh_key H :=
  cbn [registry with_key with_element with_read with_tasks_json];
  rewrite ?not_elem_of_union, ?not_elem_of_singleton;
  repeat split; try (intros [=]; fail); try apply H.

(** Closes a goal on the files of a state built from one with known
    files. *)
Ltac same_files H :=
  unfold files in H |- *; cbn; injection H as ? ?; congruence.

(** ** The monad *)

Lemma bind_unfold {A B} (m : M A) (k : A -> M B) s :
  (m ≫= k) s = match m s with
               | Ret a s' => k a s'
               | Halt h s' => Halt h s'
               end.
Proof. reflexivity. Qed.

(** ** Time *)

Lemma us_per_day_pos : 0 < us_per_day.
Proof. reflexivity. Qed.

Lemma datetime_date_midnight d : datetime_date (midnight d) = d.
Proof. unfold datetime_date, midnight. apply Z.div_mul. discriminate. Qed.

Lemma date_roundtrip s : str_date (datetime_date (to_datetime s)) = s.
Proof. destruct s as [d]. cbn. by rewrite datetime_date_midnight. Qed.

Lemma midnight_today_le now : midnight (datetime_date now) <= now.
Proof.
  unfold midnight, datetime_date.
  pose proof (Z.mul_div_le now us_per_day us_per_day_pos). lia.
Qed.

Lemma midnight_tomorrow_gt now : now < midnight (datetime_date now + 1).
Proof.
  unfold midnight, datetime_date.
  pose proof (Z.mul_succ_div_gt now us_per_day us_per_day_pos). lia.
Qed.


Lemma midnight_add d n : midnight (d + n) = midnight d + timedelta_days n.
Proof. unfold midnight, timedelta_days. lia. Qed.

(** ** Lists *)

Lemma list_remove_Some x l l' :
  list_remove x l = Some l' ->
  ∃ l1 l2, l = l1 ++ (x :: l2) ∧ (x ∉ l1) ∧ l' = l1 ++ l2.
Proof.
  revert l'. induction l as [|y l IH]; intros l' H; cbn in H; [done|].
  destruct (decide (y = x)) as [->|Hne].
  - injection H as <-. exists [], l. split_and!; [done| |done].
    apply not_elem_of_nil.
  - destruct (list_remove x l) as [l0|] eqn:E; [|done].
    injection H as <-. destruct (IH l0 eq_refl) as (l1 & l2 & -> & Hni & ->).
    exists (y :: l1), l2. split_and!; [done| |done].
    rewrite elem_of_cons. intros [->|?]; done.
Qed.

Lemma list_remove_elem x l : x ∈ l -> is_Some (list_remove x l).
Proof.
  induction l as [|y l IH]; intros H.
  - by apply elem_of_nil in H.
  - cbn. destruct (decide (y = x)); [by eexists|].
    apply elem_of_cons in H as [->|H]; [done|].
    destruct (IH H) as [l' ->]. by eexists.
Qed.

Lemma list_index_Some x l i :
  list_index x l = Some i -> l !! i = Some x.
Proof.
  revert i. induction l as [|y l IH]; intros i H; cbn in H; [done|].
  destruct (decide (y = x)) as [->|Hne].
  - by injection H as <-.
  - destruct (list_index x l) as [j|] eqn:E; [|done].
    injection H as <-. cbn. by apply IH.
Qed.

Lemma list_index_elem x l : x ∈ l -> is_Some (list_index x l).
Proof.
  induction l as [|y l IH]; intros H.
  - by apply elem_of_nil in H.
  - cbn. destruct (decide (y = x)); [by eexists|].
    apply elem_of_cons in H as [->|H]; [done|].
    destruct (IH H) as [j ->]. by eexists.
Qed.


(** A select box returns one of its options when its default position is
    one. *)
Lemma select_elem options index choice :
  (index < length options)%nat -> select options index choice ∈ options.
Proof.
  intros Hi. unfold select.
  set (i := match choice with
            | Some i => if decide (i < length options)%nat then i else index
            | None => index
            end).
  assert (i < length options)%nat as Hlt.
  { subst i. destruct choice as [c|]; [|done]. by case_decide. }
  destruct (lookup_lt_is_Some_2 options i Hlt) as [v Hv].
  rewrite Hv. cbn. by eapply list_elem_of_lookup_2.
Qed.

Lemma select_default options index v :
  options !! index = Some v -> select options index None = v.
Proof. intros H. unfold select. by rewrite H. Qed.

(** ** Storage *)

Lemma load_tasks_stored s ts : stored s = Some ts -> load_tasks s = Ret ts s.
Proof.
  unfold stored, load_tasks. intros H.
  destruct (tasks_json s) as [[|ts']|]; congruence.
Qed.

Lemma load_tasks_Ret s ts s' :
  load_tasks s = Ret ts s' -> s' = s ∧ stored s = Some ts.
Proof.
  unfold stored, load_tasks.
  destruct (tasks_json s) as [[|ts']|]; intros H; by simplify_eq.
Qed.

Lemma load_tasks_malformed s :
  stored s = None -> load_tasks s = Halt (Raised JSONDecodeError) s.
Proof.
  unfold stored, load_tasks. destruct (tasks_json s) as [[|ts']|]; done.
Qed.

(** C8. [load_tasks] returns the tasks the file holds, in the order the file
    holds them, which is the order they were saved in; with no file it
    returns the empty list; on a file [json.load] rejects it raises
    [JSONDecodeError], and so does every run of the script. *)
Theorem load_tasks_spec (a : gmap string (list byte)) (r : nat)
    (g : gset (string * Z)) (p : list element) (f : option json_text)
    (ts : list Task) (tick : nat -> datetime) (ui : frontend) :
  let disk f := {| tasks_json := f; assets := a; reads := r;
                   registry := g; page := p |} in
  load_tasks (disk None) = Ret [] (disk None)
  ∧ load_tasks (disk (Some (Encodes ts))) = Ret ts (disk (Some (Encodes ts)))
  ∧ load_tasks (disk (Some Malformed))
    = Halt (Raised JSONDecodeError) (disk (Some Malformed))
  ∧ (save_tasks ts;; load_tasks) (disk f)
    = Ret ts (disk (Some (Encodes ts)))
  ∧ stopped (run tick ui (disk (Some Malformed)))
    = Some (Raised JSONDecodeError).
Proof. cbn. done. Qed.

(** C7. Writing back what was just loaded leaves the file with the content
    it had: loading again returns the same list, a file that existed
    denotes the same array of tasks, and no other file is touched. *)
Theorem save_load_roundtrip (s s1 : state) (ts : list Task) :
  load_tasks s = Ret ts s1 ->
  let s2 := final_state (save_tasks ts s1) in
  load_tasks s2 = Ret ts s2
  ∧ (is_Some (tasks_json s) -> tasks_json s2 = tasks_json s)
  ∧ assets s2 = assets s.
Proof.
  intros H. apply load_tasks_Ret in H as [-> H]. cbn.
  split_and!; [done| |done].
  intros [f Hf]. unfold stored in H. rewrite Hf in H |- *.
  destruct f; by simplify_eq.
Qed.

Lemma save_load_roundtrip_witness :
  let s := {| tasks_json := Some (Encodes
                [{| id := 1736500000000000; name := "Write spec";
                    description := ""; deadline := ISO 20098;
                    created := ISO 20095; status := "To Do";
                    priority := "High"; attachment := "" |}]);
              assets := ∅; reads := 0; registry := ∅; page := [] |} in
  let s2 := final_state (save_tasks (collection s) s) in
  load_tasks s2 = Ret (collection s) s2
  ∧ (is_Some (tasks_json s) -> tasks_json s2 = tasks_json s)
  ∧ assets s2 = assets s.
Proof.
  intros s. apply (save_load_roundtrip s s (collection s)). reflexivity.
Defined.

(** ** Deadline lists *)

(** What the deadline section puts on the page. *)
Lemma deadline_warnings_page tick df s :
  let now1 := tick (reads s) in
  let now2 := tick (S (reads s)) in
  let now3 := tick (S (S (reads s))) in
  page (final_state (deadline_warnings tick df s))
  = page s
    ++ (if decide (df = []) then [] else
          (if decide (upcoming now1 now2 df = []) then []
           else [Warning "Tasks due soon";
                 Dataframe (rows (upcoming now1 now2 df))])
          ++ (if decide (overdue now3 df = []) then []
              else [Error "Overdue Tasks";
                    Dataframe (rows (overdue now3 df))])).
Proof.
  cbv zeta. unfold deadline_warnings.
  destruct (decide (df = [])) as [Hdf|Hdf].
  { rewrite bool_decide_eq_false_2 by (by intros []). cbn.
    by rewrite app_nil_r. }
  rewrite bool_decide_eq_true_2 by done.
  do 3 (rewrite bind_unfold; cbn [datetime_now]).
  rewrite bind_unfold.
  destruct (decide (upcoming (tick (reads s)) (tick (S (reads s))) df = []))
    as [Hu|Hu];
  destruct (decide (overdue (tick (S (S (reads s)))) df = [])) as [Ho|Ho].
  - rewrite !bool_decide_eq_false_2 by (by intros []).
    cbn. by rewrite app_nil_r.
  - rewrite bool_decide_eq_false_2 by (by intros []).
    rewrite bool_decide_eq_true_2 by done.
    cbv [mret M_ret ret]. unfold st_error. rewrite !bind_unfold.
    cbn. by rewrite <- app_assoc.
  - rewrite bool_decide_eq_true_2 by done.
    rewrite bool_decide_eq_false_2 by (by intros []).
    unfold st_warning. rewrite !bind_unfold.
    cbn. by rewrite <- app_assoc.
  - rewrite !bool_decide_eq_true_2 by done.
    unfold st_warning, st_error. rewrite !bind_unfold. cbn [emit].
    rewrite !bind_unfold. cbn. by rewrite <- !app_assoc.
Qed.

(** C9. The "due soon" list holds, in the order of the collection, the
    tasks whose deadline (midnight of its date) is after the clock reading
    and no more than three days after it, the "overdue" list those whose
    deadline is before the reading; these are the lists the script shows;
    of two tasks due tomorrow and in ten days only the first is due
    soon. *)
Theorem deadline_lists_spec (now1 now2 now3 now : datetime)
    (df : list Task) (t t1 t2 : Task) (tick : nat -> datetime) (s : state) :
  (t ∈ upcoming now1 now2 df
     ↔ t ∈ df ∧ now1 < to_datetime (deadline t)
              ∧ to_datetime (deadline t) <= now2 + timedelta_days 3)
  ∧ (t ∈ overdue now3 df ↔ t ∈ df ∧ to_datetime (deadline t) < now3)
  ∧ upcoming now1 now2 df `sublist_of` df
  ∧ overdue now3 df `sublist_of` df
  ∧ page (final_state (deadline_warnings tick df s))
    = page s
      ++ (if decide (df = []) then [] else
            (if decide (upcoming (tick (reads s)) (tick (S (reads s))) df = [])
             then []
             else [Warning "Tasks due soon";
                   Dataframe (rows (upcoming (tick (reads s))
                                      (tick (S (reads s))) df))])
            ++ (if decide (overdue (tick (S (S (reads s)))) df = []) then []
                else [Error "Overdue Tasks";
                      Dataframe (rows (overdue (tick (S (S (reads s)))) df))]))
  ∧ upcoming now now
      [set_deadline (str_date (datetime_date now + 1)) t1;
       set_deadline (str_date (datetime_date now + 10)) t2]
    = [set_deadline (str_date (datetime_date now + 1)) t1].
Proof.
  split_and!.
  - unfold upcoming. rewrite list_elem_of_filter. intuition lia.
  - unfold overdue. rewrite list_elem_of_filter. intuition lia.
  - apply sublist_filter.
  - apply sublist_filter.
  - apply deadline_warnings_page.
  - pose proof (midnight_today_le now) as Hle.
    pose proof (midnight_tomorrow_gt now) as Hgt.
    unfold upcoming.
    rewrite filter_cons_True.
    2:{ cbn. rewrite midnight_add in *. unfold timedelta_days in *. lia. }
    rewrite filter_cons_False; [done|].
    cbn. rewrite midnight_add in *. unfold timedelta_days in *. lia.
Qed.

(** ** Reasoning about runs *)



Lemma hoare_ret {A} (P : state -> Prop) (a : A) Q E :
  (∀ s, P s -> Q a s) -> hoare P (mret a) Q E.
Proof. intros H s Hs. by apply H. Qed.

Lemma hoare_bind {A B} P (m : M A) (k : A -> M B) R Q E :
  hoare P m R E -> (∀ a, hoare (R a) (k a) Q E) -> hoare P (m ≫= k) Q E.
Proof.
  intros Hm Hk s Hs. rewrite bind_unfold. specialize (Hm s Hs).
  destruct (m s) as [a s'|h s']; [by apply Hk|done].
Qed.

Lemma hoare_conseq {A} (P P' : state -> Prop) (m : M A)
    (Q Q' : A -> state -> Prop) (E E' : stop -> state -> Prop) :
  hoare P m Q E ->
  (∀ s, P' s -> P s) -> (∀ a s, Q a s -> Q' a s) -> (∀ h s, E h s -> E' h s) ->
  hoare P' m Q' E'.
Proof.
  intros Hm HP HQ HE s Hs. specialize (Hm s (HP s Hs)).
  destruct (m s); auto.
Qed.

Lemma hoare_for_each {A} (I : state -> Prop) (l : list A)
    (body : A -> M unit) E :
  (∀ x, x ∈ l -> hoare I (body x) (λ _, I) E) ->
  hoare I (for_each l body) (λ _, I) E.
Proof.
  induction l as [|x l IH]; intros H; cbn [for_each].
  - by apply hoare_ret.
  - eapply hoare_bind.
    + apply H. apply list_elem_of_here.
    + intros u. apply IH. intros y Hy. apply H. by apply list_elem_of_further.
Qed.



Lemma elem_of_enumerate_from {A} (i j : nat) (x : A) (l : list A) :
  (j, x) ∈ enumerate_from i l -> (i ≤ j)%nat ∧ l !! (j - i)%nat = Some x.
Proof.
  revert i. induction l as [|y l IH]; intros i H; cbn in H.
  - by apply elem_of_nil in H.
  - apply elem_of_cons in H as [H|H].
    + simplify_eq. by rewrite Nat.sub_diag.
    + apply IH in H as [Hle H]. split; [lia|].
      replace (j - i)%nat with (S (j - S i)) by lia. done.
Qed.

Lemma select_changed options index choice c :
  options !! index = Some c ->
  select options index choice ≠ c ->
  ∃ k, choice = Some k ∧ options !! k = Some (select options index choice).
Proof.
  unfold select. intros Hc Hne. destruct choice as [k|].
  - case_decide as Hk.
    + exists k. split; [done|].
      destruct (lookup_lt_is_Some_2 options k Hk) as [v Hv]. by rewrite Hv.
    + by rewrite Hc in Hne.
  - by rewrite Hc in Hne.
Qed.

Lemma select_chosen options index k v :
  options !! k = Some v -> select options index (Some k) = v.
Proof.
  intros H. unfold select. rewrite decide_True; [by rewrite H|].
  by eapply lookup_lt_Some.
Qed.

Section Tame.

Variable tick : nat -> datetime.
Variable ui : frontend.
Variable ts : list Task.
Variable d0 : option json_text * gmap string (list byte).
Variable p0 : list element.
Variable r0 : nat.

Local Abbreviation Kept := (kept d0 p0 r0).
Local Abbreviation Changed := (changed ui ts d0 p0 r0).

Lemma hoare_pure {A} (F : Prop) P (m : M A) Q E :
  (F -> hoare P m Q E) -> hoare (λ s, P s ∧ F) m Q E.
Proof. intros H s [Hs HF]. by apply H. Qed.

Lemma tame_ret {A} (a : A) (F : A -> Prop) :
  F a -> hoare Kept (mret a) (λ a s, Kept s ∧ F a) Changed.
Proof. intros HF. apply hoare_ret. done. Qed.

Lemma tame_skip : hoare Kept (mret tt) (λ _, Kept) Changed.
Proof. by apply hoare_ret. Qed.

Lemma kept_changed h s : Kept s -> Changed h s.
Proof. intros (Hf & Hp & Hr). split_and!; [done|done|by left]. Qed.

Lemma tame_raise {A} e (Q : A -> state -> Prop) :
  hoare Kept (raise e) Q Changed.
Proof. intros s Hs. by apply kept_changed. Qed.

Lemma tame_register k : hoare Kept (register k) (λ _, Kept) Changed.
Proof.
  intros s Hs. unfold register. case_decide; [by apply kept_changed|done].
Qed.

Lemma tame_emit e : hoare Kept (emit e) (λ _, Kept) Changed.
Proof.
  intros s (Hf & Hp & Hr). split_and!; [done| |done]. cbn.
  by apply prefix_app_r.
Qed.

Lemma tame_datetime_now : hoare Kept (datetime_now tick) (λ _, Kept) Changed.
Proof. intros s (Hf & Hp & Hr). split_and!; [done|done|cbn; lia]. Qed.

Lemma tame_checkbox k :
  hoare Kept (st_checkbox ui k)
    (λ b s, Kept s ∧ (b = true -> widgets ui !! k = Some (WBool true)))
    Changed.
Proof.
  eapply hoare_bind; [apply tame_register|]. intros ?.
  apply hoare_ret. intros s Hs. split; [done|].
  destruct (widgets ui !! k) as [[[]| | |]|]; done.
Qed.

Lemma tame_button k :
  hoare Kept (st_button ui k)
    (λ b s, Kept s ∧ (b = true -> widgets ui !! k = Some (WBool true)))
    Changed.
Proof. apply tame_checkbox. Qed.

Lemma tame_text_input v k :
  hoare Kept (st_text_input ui v k)
    (λ n s, Kept s ∧ (n = v ∨ widgets ui !! k = Some (WText n))) Changed.
Proof.
  eapply hoare_bind; [apply tame_register|]. intros ?.
  apply hoare_ret. intros s Hs. split; [done|].
  destruct (widgets ui !! k) as [[]|]; auto.
Qed.

Lemma tame_text_area v k :
  hoare Kept (st_text_area ui v k)
    (λ n s, Kept s ∧ (n = v ∨ widgets ui !! k = Some (WText n))) Changed.
Proof. apply tame_text_input. Qed.

Lemma tame_date_input v k :
  hoare Kept (st_date_input ui v k) (λ _, Kept) Changed.
Proof.
  eapply hoare_bind; [apply tame_register|]. intros ?. by apply hoare_ret.
Qed.

Lemma tame_selectbox options index k :
  hoare Kept (st_selectbox ui options index k)
    (λ v s, Kept s
            ∧ v = select options index
                    match widgets ui !! k with
                    | Some (WIndex i) => Some i
                    | _ => None
                    end) Changed.
Proof.
  eapply hoare_bind; [apply tame_register|]. intros ?. by apply hoare_ret.
Qed.

Lemma tame_index_of x l :
  hoare Kept (index_of x l) (λ i s, Kept s ∧ list_index x l = Some i) Changed.
Proof.
  unfold index_of. destruct (list_index x l) as [i|].
  - by apply hoare_ret.
  - apply tame_raise.
Qed.

Lemma tame_save_rerun {A} ts' msg (Q : A -> state -> Prop) :
  step ui ts ts' ->
  hoare Kept (save_tasks ts';; st_success msg;; st_rerun) Q Changed.
Proof.
  intros Hstep s (Hf & Hp & Hr). cbn.
  split_and!; [by apply prefix_app_r|done|].
  right. split_and!; [done|by rewrite <- Hf|]. by exists ts'.
Qed.

Lemma tame_save_rerun' {A} ts' (Q : A -> state -> Prop) :
  step ui ts ts' ->
  hoare Kept (save_tasks ts';; st_rerun) Q Changed.
Proof.
  intros Hstep s (Hf & Hp & Hr). cbn. split_and!; [done|done|].
  right. split_and!; [done|by rewrite <- Hf|]. by exists ts'.
Qed.

Lemma tame_render_task i column t :
  ts !! i = Some t -> status t = column ->
  hoare Kept (render_task ui ts i column t) (λ _, Kept) Changed.
Proof.
  intros Hi Hcol. unfold render_task.
  eapply hoare_bind; [apply tame_emit|]. intros ?.
  eapply hoare_bind; [apply tame_checkbox|]. intros edit_mode.
  apply hoare_pure. intros Hedit.
  eapply hoare_bind with (R := λ _, Kept).
  { destruct edit_mode; [|apply tame_skip]. specialize (Hedit eq_refl).
    eapply hoare_bind; [apply tame_text_input|]. intros new_name.
    apply hoare_pure. intros Hname.
    eapply hoare_bind; [apply tame_text_area|]. intros new_desc.
    apply hoare_pure. intros ?.
    eapply hoare_bind; [apply tame_date_input|]. intros new_deadline.
    eapply hoare_bind; [apply tame_index_of|]. intros index.
    apply hoare_pure. intros Hindex.
    eapply hoare_bind; [apply tame_selectbox|]. intros new_priority.
    apply hoare_pure. intros Hprio.
    eapply hoare_bind; [apply tame_button|]. intros save.
    apply hoare_pure. intros Hsave.
    destruct save; [|apply tame_skip]. specialize (Hsave eq_refl).
    apply tame_save_rerun. apply step_edit; try done.
    rewrite Hprio. apply select_elem.
    apply list_index_Some in Hindex. by eapply lookup_lt_Some. }
  intros ?.
  eapply hoare_bind; [apply tame_index_of|]. intros index.
  apply hoare_pure. intros Hindex. apply list_index_Some in Hindex.
  eapply hoare_bind; [apply tame_selectbox|]. intros new_status.
  apply hoare_pure. intros Hstatus.
  eapply hoare_bind with (R := λ _, Kept).
  { case_bool_decide as Hne; [|apply tame_skip].
    apply tame_save_rerun'. rewrite Hstatus in Hne.
    destruct (select_changed _ _ _ _ Hindex Hne) as (k & Hk & Hv).
    rewrite <- Hstatus in Hv.
    apply step_status with (k := k); try done; [|congruence].
    destruct (widgets ui !! ("status", id t)) as [[]|]; by simplify_eq. }
  intros ?.
  eapply hoare_bind; [apply tame_button|]. intros del.
  apply hoare_pure. intros Hdel.
  destruct del; [|apply tame_skip]. specialize (Hdel eq_refl).
  assert (t ∈ ts) as Hin by by eapply list_elem_of_lookup_2.
  unfold remove_task. destruct (list_remove_elem t ts Hin) as [ts' Hts'].
  rewrite Hts'.
  eapply hoare_bind; [apply (tame_ret ts' (λ a, a = ts') eq_refl)|].
  intros ts''. apply hoare_pure. intros ->.
  apply tame_save_rerun. by eapply step_delete.
Qed.

Lemma tame_board_column column :
  hoare Kept (board_column ui ts column) (λ _, Kept) Changed.
Proof.
  unfold board_column. apply hoare_for_each. intros [i t] Hit.
  apply elem_of_enumerate_from in Hit as [_ Hit].
  rewrite Nat.sub_0_r in Hit.
  case_bool_decide; [by apply tame_render_task|apply tame_skip].
Qed.

Lemma tame_board : hoare Kept (board ui ts) (λ _, Kept) Changed.
Proof.
  unfold board. apply hoare_for_each. intros column _.
  apply tame_board_column.
Qed.

Lemma tame_metrics df : hoare Kept (metrics df) (λ _, Kept) Changed.
Proof. unfold metrics. case_bool_decide; apply tame_emit. Qed.

Lemma tame_deadline_warnings df :
  hoare Kept (deadline_warnings tick df) (λ _, Kept) Changed.
Proof.
  unfold deadline_warnings. case_bool_decide; [|apply tame_skip].
  eapply hoare_bind; [apply tame_datetime_now|]. intros now1.
  eapply hoare_bind; [apply tame_datetime_now|]. intros now2.
  eapply hoare_bind; [apply tame_datetime_now|]. intros now3.
  eapply hoare_bind with (R := λ _, Kept).
  { case_bool_decide; [|apply tame_skip].
    eapply hoare_bind; [apply tame_emit|]. intros ?. apply tame_emit. }
  intros ?. case_bool_decide; [|apply tame_skip].
  eapply hoare_bind; [apply tame_emit|]. intros ?. apply tame_emit.
Qed.

(** The script below the sidebar. *)
Lemma tame_page :
  hoare Kept
    (emit (Calendar (calendar_events ts));; metrics ts;; board ui ts;;
     deadline_warnings tick ts)
    (λ _, Kept) Changed.
Proof.
  eapply hoare_bind; [apply tame_emit|]. intros ?.
  eapply hoare_bind; [apply tame_metrics|]. intros ?.
  eapply hoare_bind; [apply tame_board|]. intros ?.
  apply tame_deadline_warnings.
Qed.

End Tame.

(** *** The sidebar *)

Lemma sidebar_create tick ui tasks s :
  form_submitted (task_form ui) = true ->
  form_name (task_form ui) ≠ "" ->
  sidebar tick ui tasks s
  = Halt Rerun
      {| tasks_json :=
           Some (Encodes (tasks ++ [new_task tick (task_form ui) (reads s)]));
         assets := uploaded (task_form ui) (assets s);
         reads := S (S (S (reads s)));
         registry := registry s;
         page := page s ++ [Success "Task added!"] |}.
Proof.
  intros Hsub Hname. unfold sidebar, new_task, upload_path, uploaded.
  rewrite bind_unfold. cbn [datetime_now].
  rewrite Hsub, bool_decide_eq_true_2 by done. cbn [andb].
  destruct (form_file (task_form ui)) as [up|]; reflexivity.
Qed.

Lemma sidebar_warning tick ui tasks s :
  form_submitted (task_form ui) = true ->
  form_name (task_form ui) = "" ->
  sidebar tick ui tasks s
  = Ret tt (with_element (Warning "Task name required.") (with_read s)).
Proof.
  intros Hsub Hname. unfold sidebar.
  rewrite bind_unfold. cbn [datetime_now].
  rewrite Hsub, bool_decide_eq_false_2 by (by intros []). reflexivity.
Qed.

Lemma sidebar_idle tick ui tasks s :
  form_submitted (task_form ui) = false ->
  sidebar tick ui tasks s = Ret tt (with_read s).
Proof.
  intros Hsub. unfold sidebar.
  rewrite bind_unfold. cbn [datetime_now]. by rewrite Hsub.
Qed.

Lemma app_unfold tick ui s :
  app tick ui s
  = match load_tasks s with
    | Ret tasks s1 =>
        match sidebar tick ui tasks s1 with
        | Ret _ s2 =>
            (emit (Calendar (calendar_events tasks));; metrics tasks;;
             board ui tasks;; deadline_warnings tick tasks) s2
        | Halt h s2 => Halt h s2
        end
    | Halt h s1 => Halt h s1
    end.
Proof. reflexivity. Qed.

Lemma step_no_widgets ui ts ts' : widgets ui = ∅ -> ¬ step ui ts ts'.
Proof.
  intros He Hs. destruct Hs as [? ? ? ? ? ? ? H|? ? ? ? ? H|? ? ? H];
    rewrite He, lookup_empty in H; done.
Qed.

(** What a run does to the files: nothing, or the creation of one task
    from the form, or one change of the board. *)
Lemma run_cases tick ui s ts :
  stored s = Some ts ->
  let o := run tick ui s in
  (reads s ≤ reads (final_state o))%nat
  ∧ (files (final_state o) = files s
     ∨ (stopped o = Some Rerun
        ∧ form_submitted (task_form ui) = true
        ∧ form_name (task_form ui) ≠ ""
        ∧ tasks_json (final_state o)
          = Some (Encodes (ts ++ [new_task tick (task_form ui) (reads s)]))
        ∧ assets (final_state o) = uploaded (task_form ui) (assets s)
        ∧ reads (final_state o) = S (S (S (reads s))))
     ∨ (stopped o = Some Rerun
        ∧ assets (final_state o) = assets s
        ∧ ∃ ts', tasks_json (final_state o) = Some (Encodes ts')
                 ∧ step ui ts ts')).
Proof.
  intros Hts o. subst o. unfold run. rewrite app_unfold.
  rewrite (load_tasks_stored (fresh s) ts) by done.
  assert (∀ s2, files s2 = files s -> (reads s ≤ reads s2)%nat ->
    let o := (emit (Calendar (calendar_events ts));; metrics ts;;
              board ui ts;; deadline_warnings tick ts) s2 in
    (reads s ≤ reads (final_state o))%nat
    ∧ (files (final_state o) = files s
       ∨ (stopped o = Some Rerun
          ∧ assets (final_state o) = assets s
          ∧ ∃ ts', tasks_json (final_state o) = Some (Encodes ts')
                   ∧ step ui ts ts'))) as Hpage.
  { intros s2 Hf Hr.
    pose proof (tame_page tick ui ts (files s) [] (reads s) s2) as H.
    cbv zeta.
    destruct ((emit (Calendar (calendar_events ts));; metrics ts;;
               board ui ts;; deadline_warnings tick ts) s2) as [[] s3|h s3].
    - destruct H as (H1 & _ & H3); [split_and!; [done|apply prefix_nil|done]|].
      cbn. auto.
    - destruct H as (_ & H2 & H3); [split_and!; [done|apply prefix_nil|done]|].
      cbn. split; [done|]. destruct H3 as [H3|(-> & H3 & H4)]; auto. }
  destruct (form_submitted (task_form ui)) eqn:Hsub.
  - destruct (decide (form_name (task_form ui) = "")) as [Hname|Hname].
    + rewrite sidebar_warning by done.
      destruct (Hpage (with_element (Warning "Task name required.")
                         (with_read (fresh s)))) as [H1 H2];
        [done|cbn; lia|].
      split; [done|]. destruct H2 as [H2|H2]; auto.
    + rewrite sidebar_create by done. cbn.
      split; [lia|]. right. left. done.
  - rewrite sidebar_idle by done.
    destruct (Hpage (with_read (fresh s))) as [H1 H2]; [done|cbn; lia|].
    split; [done|]. destruct H2 as [H2|H2]; auto.
Qed.

Lemma run_malformed tick ui s :
  stored s = None -> run tick ui s = Halt (Raised JSONDecodeError) (fresh s).
Proof.
  intros H. unfold run. rewrite app_unfold.
  by rewrite (load_tasks_malformed (fresh s)).
Qed.

(** ** Creating a task *)

(** C1 (amended). With a name that is not empty, the form makes a task
    whose id is the clock reading taken for it, whose status is "To Do",
    whose [created] is the date of the next reading and whose other fields
    are the ones entered; the task is put at the end of the list and the
    list saved, so that loading returns the former tasks and then the new
    one.  The id is new to the list when no task in it has that reading as
    its id. *)
Theorem create_appends (tick : nat -> datetime) (s : state) (ts : list Task)
    (n d : string) (dl : date) (p : nat) (f : option upload) :
  n ≠ "" ->
  stored s = Some ts ->
  let o := run tick (create n d dl p f) s in
  let t := {| id := timestamp (tick (S (reads s)));
              name := n;
              description := d;
              deadline := str_date dl;
              created := str_date (datetime_date (tick (S (S (reads s)))));
              status := "To Do";
              priority := select priority_names 0 (Some p);
              attachment := match f with
                            | Some up => "assets/" +:+ file_name up
                            | None => ""
                            end |} in
  stopped o = Some Rerun
  ∧ load_tasks (final_state o) = Ret (ts ++ [t]) (final_state o)
  ∧ length (ts ++ [t]) = S (length ts)
  ∧ (∀ v, priority_names !! p = Some v -> priority t = v)
  ∧ (NoDup (id <$> ts) -> id t ∉ id <$> ts -> NoDup (id <$> (ts ++ [t]))).
Proof.
  intros Hn Hts o t. subst o. unfold run. rewrite app_unfold.
  rewrite (load_tasks_stored (fresh s) ts) by done.
  rewrite sidebar_create by done. cbn [stopped final_state].
  split_and!.
  - done.
  - apply load_tasks_stored. reflexivity.
  - rewrite length_app. cbn. lia.
  - intros v Hv. cbn. by apply select_chosen.
  - intros Hnd Hni. rewrite fmap_app. apply NoDup_app. split_and!.
    + done.
    + intros x Hx Hx'. cbn in Hx'. apply list_elem_of_singleton in Hx'.
      by subst.
    + cbn. apply NoDup_singleton.
Qed.

Lemma create_appends_witness :
  let tick := λ k : nat, 1736500000000000 + Z.of_nat k in
  let o := run tick (create "Write spec" "" 20098 2 None) initial in
  stopped o = Some Rerun
  ∧ collection (final_state o)
    = [{| id := 1736500000000001; name := "Write spec"; description := "";
          deadline := ISO 20098; created := ISO 20098; status := "To Do";
          priority := "High"; attachment := "" |}].
Proof.
  intros tick o.
  destruct (create_appends tick initial [] "Write spec" "" 20098 2 None)
    as (H1 & H2 & _); [done|reflexivity|].
  split; [exact H1|].
  apply load_tasks_Ret in H2 as [_ H2]. unfold collection.
  fold o in H2. rewrite H2. reflexivity.
Defined.

(** The id given by [add_task] is a clock reading: two tasks made at the
    same reading share their id. *)
Lemma create_id_collision :
  let tick := λ _ : nat, 1736500000000000 in
  let s1 := final_state (run tick (create "A" "" 20098 0 None) initial) in
  let s2 := final_state (run tick (create "B" "" 20098 0 None) s1) in
  id <$> collection s2 = [1736500000000000; 1736500000000000]
  ∧ ¬ NoDup (id <$> collection s2).
Proof.
  cbv zeta. split; [reflexivity|].
  intros H. apply NoDup_cons in H as [H _]. apply H. apply list_elem_of_here.
Qed.

(** C2. A form sent with an empty name adds no task: the run shows the
    warning "Task name required." and leaves [tasks.json] and the uploaded
    files as they were. *)
Theorem create_empty_name (tick : nat -> datetime) (s : state)
    (d : string) (dl : date) (p : nat) (f : option upload) :
  let o := run tick (create "" d dl p f) s in
  files (final_state o) = files s
  ∧ stored (final_state o) = stored s
  ∧ collection (final_state o) = collection s
  ∧ (is_Some (stored s) ->
     ∃ rest, page (final_state o) = Warning "Task name required." :: rest).
Proof.
  intros o.
  assert (files (final_state o) = files s
          ∧ (is_Some (stored s) ->
             ∃ rest, page (final_state o)
                     = Warning "Task name required." :: rest)) as [Hf Hp].
  { subst o. destruct (stored s) as [ts|] eqn:Hts.
    - unfold run. rewrite app_unfold.
      rewrite (load_tasks_stored (fresh s) ts) by done.
      rewrite sidebar_warning by done.
      set (s2 := with_element _ _).
      pose proof (tame_page tick (create "" d dl p f) ts (files s)
                    [Warning "Task name required."] 0%nat s2) as H.
      destruct ((emit (Calendar (calendar_events ts));; metrics ts;;
        board (create "" d dl p f) ts;; deadline_warnings tick ts) s2)
        as [[] s3|h s3]; cbn [final_state].
      + destruct H as (H1 & [rest H2] & _);
          [split_and!; [done|done|lia]|].
        split; [done|]. intros _. by exists rest.
      + destruct H as ([rest H1] & _ & H2);
          [split_and!; [done|done|lia]|].
        split; [|intros _; by exists rest].
        destruct H2 as [H2|(_ & _ & ts' & _ & H2)]; [done|].
        by apply step_no_widgets in H2.
    - rewrite run_malformed by done. split; [done|]. by intros [? ?]. }
  split_and!; [done| | |done].
  - unfold stored. by injection Hf as -> _.
  - unfold collection, stored. by injection Hf as -> _.
Qed.

(** *** The board, card by card *)

Lemma register_fresh k s : k ∉ registry s -> register k s = Ret tt (with_key k s).
Proof. intros H. unfold register. by rewrite decide_False. Qed.

Section Cards.

Variable ui : frontend.
Variable tasks : list Task.

Lemma st_checkbox_fresh k s :
  k ∉ registry s ->
  st_checkbox ui k s
  = Ret (match widgets ui !! k with Some (WBool b) => b | _ => false end)
      (with_key k s).
Proof. intros H. unfold st_checkbox. by rewrite bind_unfold, register_fresh. Qed.

Lemma st_button_fresh k s :
  k ∉ registry s ->
  st_button ui k s
  = Ret (match widgets ui !! k with Some (WBool b) => b | _ => false end)
      (with_key k s).
Proof. apply st_checkbox_fresh. Qed.

Lemma st_text_input_fresh v k s :
  k ∉ registry s ->
  st_text_input ui v k s
  = Ret (match widgets ui !! k with Some (WText x) => x | _ => v end)
      (with_key k s).
Proof. intros H. unfold st_text_input. by rewrite bind_unfold, register_fresh. Qed.

Lemma st_text_area_fresh v k s :
  k ∉ registry s ->
  st_text_area ui v k s
  = Ret (match widgets ui !! k with Some (WText x) => x | _ => v end)
      (with_key k s).
Proof. apply st_text_input_fresh. Qed.

Lemma st_date_input_fresh v k s :
  k ∉ registry s ->
  st_date_input ui v k s
  = Ret (match widgets ui !! k with Some (WDate x) => x | _ => v end)
      (with_key k s).
Proof. intros H. unfold st_date_input. by rewrite bind_unfold, register_fresh. Qed.

Lemma st_selectbox_fresh options index k s :
  k ∉ registry s ->
  st_selectbox ui options index k s
  = Ret (select options index
           match widgets ui !! k with Some (WIndex i) => Some i | _ => None end)
      (with_key k s).
Proof. intros H. unfold st_selectbox. by rewrite bind_unfold, register_fresh. Qed.

Lemma index_of_elem x l s :
  x ∈ l -> ∃ i, index_of x l s = Ret i s ∧ l !! i = Some x.
Proof.
  intros H. destruct (list_index_elem x l H) as [i Hi].
  exists i. unfold index_of. rewrite Hi. split; [done|].
  by apply list_index_Some.
Qed.

Lemma render_task_untouched i column t s :
  untouched ui (id t) -> column ∈ status_names ->
  (∀ pfx, (pfx, id t) ∉ registry s) ->
  render_task ui tasks i column t s = Ret tt (shown t s).
Proof.
  intros Hun Hcol Hfresh. unfold render_task.
  rewrite bind_unfold. cbn [emit].
  rewrite bind_unfold, st_checkbox_fresh by apply Hfresh.
  rewrite Hun.
  rewrite bind_unfold. cbn [mret M_ret ret].
  rewrite bind_unfold.
  destruct (index_of_elem column status_names
              (with_key ("edit", id t)
                 (with_element (Card (color_by_priority (priority t)) t) s))
              Hcol) as (idx & -> & Hidx).
  rewrite bind_unfold, st_selectbox_fresh.
  2:{ fresh_key Hfresh. }
  rewrite Hun, (select_default _ _ _ Hidx).
  rewrite bind_unfold, bool_decide_eq_false_2 by (by intros []).
  cbn [mret M_ret ret].
  rewrite bind_unfold, st_button_fresh.
  2:{ fresh_key Hfresh. }
  by rewrite Hun.
Qed.

End Cards.

Lemma select_Some_default options index k c :
  options !! index = Some c ->
  select options index (Some k) = default c (options !! k).
Proof.
  intros Hc. unfold select. case_decide as Hk.
  - by destruct (lookup_lt_is_Some_2 options k Hk) as [v ->].
  - rewrite Hc. by rewrite (lookup_ge_None_2 options k) by lia.
Qed.

Section Handlers.

Variable ui : frontend.
Variable tasks : list Task.

Lemma render_task_status i t k s :
  widgets ui !! ("edit", id t) = None ->
  widgets ui !! ("status", id t) = Some (WIndex k) ->
  widgets ui !! ("delete", id t) = None ->
  status t ∈ status_names ->
  (∀ pfx, (pfx, id t) ∉ registry s) ->
  let v := default (status t) (status_names !! k) in
  render_task ui tasks i (status t) t s
  = if decide (v = status t) then Ret tt (shown t s)
    else Halt Rerun
           (with_tasks_json (Some (Encodes (<[i := set_status v t]> tasks)))
              (with_key ("status", id t) (with_key ("edit", id t)
                 (with_element (Card (color_by_priority (priority t)) t) s)))).
Proof.
  intros Hedit Hstatus Hdel Hcol Hfresh v. unfold render_task.
  rewrite bind_unfold. cbn [emit].
  rewrite bind_unfold, st_checkbox_fresh by apply Hfresh.
  rewrite Hedit.
  rewrite bind_unfold. cbn [mret M_ret ret].
  rewrite bind_unfold.
  destruct (index_of_elem (status t) status_names
              (with_key ("edit", id t)
                 (with_element (Card (color_by_priority (priority t)) t) s))
              Hcol) as (idx & -> & Hidx).
  rewrite bind_unfold, st_selectbox_fresh by fresh_key Hfresh.
  rewrite Hstatus, (select_Some_default _ _ _ _ Hidx). fold v.
  rewrite bind_unfold. destruct (decide (v = status t)) as [Hv|Hv].
  - rewrite bool_decide_eq_false_2 by (by intros []).
    cbn [mret M_ret ret].
    rewrite bind_unfold, st_button_fresh by fresh_key Hfresh.
    by rewrite Hdel.
  - by rewrite bool_decide_eq_true_2 by done.
Qed.

Lemma render_task_delete i t ts' s :
  widgets ui !! ("edit", id t) = None ->
  widgets ui !! ("status", id t) = None ->
  widgets ui !! ("delete", id t) = Some (WBool true) ->
  status t ∈ status_names ->
  list_remove t tasks = Some ts' ->
  (∀ pfx, (pfx, id t) ∉ registry s) ->
  render_task ui tasks i (status t) t s
  = Halt Rerun (with_element (Success "Task deleted!")
                  (with_tasks_json (Some (Encodes ts')) (shown t s))).
Proof.
  intros Hedit Hstatus Hdel Hcol Hrem Hfresh. unfold render_task.
  rewrite bind_unfold. cbn [emit].
  rewrite bind_unfold, st_checkbox_fresh by apply Hfresh.
  rewrite Hedit.
  rewrite bind_unfold. cbn [mret M_ret ret].
  rewrite bind_unfold.
  destruct (index_of_elem (status t) status_names
              (with_key ("edit", id t)
                 (with_element (Card (color_by_priority (priority t)) t) s))
              Hcol) as (idx & -> & Hidx).
  rewrite bind_unfold, st_selectbox_fresh by fresh_key Hfresh.
  rewrite Hstatus, (select_default _ _ _ Hidx).
  rewrite bind_unfold, bool_decide_eq_false_2 by (by intros []).
  cbn [mret M_ret ret].
  rewrite bind_unfold, st_button_fresh by fresh_key Hfresh.
  rewrite Hdel. unfold remove_task. rewrite Hrem. reflexivity.
Qed.

Lemma render_task_save i column t s :
  widgets ui !! ("edit", id t) = Some (WBool true) ->
  widgets ui !! ("save", id t) = Some (WBool true) ->
  (∀ pfx, (pfx, id t) ∉ registry s) ->
  ∃ s', files s' = files s
        ∧ render_task ui tasks i column t s
          = if decide (priority t ∈ priority_names)
            then Halt Rerun
                   (with_tasks_json (Some (Encodes (<[i := edited ui t]> tasks))) s')
            else Halt (Raised ValueError) s'.
Proof.
  intros Hedit Hsave Hfresh. unfold render_task.
  rewrite bind_unfold. cbn [emit].
  rewrite bind_unfold, st_checkbox_fresh by apply Hfresh.
  rewrite Hedit.
  rewrite bind_unfold, bind_unfold, st_text_input_fresh by fresh_key Hfresh.
  rewrite bind_unfold, st_text_area_fresh by fresh_key Hfresh.
  rewrite bind_unfold, st_date_input_fresh by fresh_key Hfresh.
  rewrite bind_unfold.
  destruct (decide (priority t ∈ priority_names)) as [Hp|Hp].
  - match goal with |- context [index_of _ _ ?s0] =>
      destruct (index_of_elem (priority t) priority_names s0 Hp)
        as (idx & -> & Hidx) end.
    rewrite bind_unfold, st_selectbox_fresh by fresh_key Hfresh.
    rewrite bind_unfold, st_button_fresh by fresh_key Hfresh.
    rewrite Hsave.
    assert (set_priority
              (select priority_names idx
                 match widgets ui !! ("priority", id t) with
                 | Some (WIndex i0) => Some i0
                 | _ => None
                 end)
              (set_deadline
                 (str_date
                    match widgets ui !! ("deadline", id t) with
                    | Some (WDate x) => x
                    | _ => datetime_date (to_datetime (deadline t))
                    end)
                 (set_description
                    match widgets ui !! ("desc", id t) with
                    | Some (WText x) => x
                    | _ => description t
                    end
                    (set_name
                       match widgets ui !! ("name", id t) with
                       | Some (WText x) => x
                       | _ => name t
                       end t)))
            = edited ui t) as ->.
    { unfold edited. f_equal; [|f_equal].
      - destruct (widgets ui !! ("priority", id t)) as [[]|];
          try (by rewrite (select_default _ _ _ Hidx)).
        by rewrite (select_Some_default _ _ _ _ Hidx).
      - destruct (widgets ui !! ("deadline", id t)) as [[]|];
          by rewrite ?date_roundtrip. }
    eexists (with_element (Success "Task updated!")
               (with_key ("save", id t) (with_key ("priority", id t)
                 (with_key ("deadline", id t) (with_key ("desc", id t)
                   (with_key ("name", id t) (with_key ("edit", id t)
                     (with_element (Card (color_by_priority (priority t)) t)
                        s)))))))).
    split; reflexivity.
  - eexists. split; [|unfold index_of].
    2:{ destruct (list_index (priority t) priority_names) as [idx|] eqn:E.
        - apply list_index_Some in E.
          apply list_elem_of_lookup_2 in E. done.
        - reflexivity. }
    reflexivity.
Qed.

End Handlers.

(** ** Deleting from the list *)

(** C10. [tasks.remove(t)] on a list that contains [t] takes out one
    element, the first one equal to [t], and keeps the others in their
    order; this is the list the "Delete Task" button of the card of [t]
    saves. *)
Theorem list_remove_first (t : Task) (tasks : list Task) :
  t ∈ tasks ->
  ∃ l1 l2, tasks = l1 ++ (t :: l2) ∧ (t ∉ l1)
           ∧ list_remove t tasks = Some (l1 ++ l2)
           ∧ length tasks = S (length (l1 ++ l2))
           ∧ ∀ ui i s,
               widgets ui !! ("edit", id t) = None ->
               widgets ui !! ("status", id t) = None ->
               widgets ui !! ("delete", id t) = Some (WBool true) ->
               status t ∈ status_names ->
               (∀ pfx, (pfx, id t) ∉ registry s) ->
               render_task ui tasks i (status t) t s
               = Halt Rerun
                   (with_element (Success "Task deleted!")
                      (with_tasks_json (Some (Encodes (l1 ++ l2)))
                         (shown t s))).
Proof.
  intros Hin. destruct (list_remove_elem t tasks Hin) as [l' Hl'].
  destruct (list_remove_Some _ _ _ Hl') as (l1 & l2 & -> & Hni & ->).
  exists l1, l2. split_and!; try done.
  - rewrite !length_app. cbn. lia.
  - intros ui i s Hedit Hstatus Hdel Hst Hfresh.
    by apply render_task_delete.
Qed.

(** *** The board as a whole, when ids are distinct *)

Section BoardRun.

Variable ui : frontend.
Variable tasks : list Task.
Variable d0 : option json_text * gmap string (list byte).

(** The id whose card is watched, what is known once that card was passed
    without a stop, and what is known after a stop. *)
Variable target : Z.
Variable G : Prop.
Variable E : stop -> state -> Prop.

Local Abbreviation Inv := (inv d0 target G).

Hypothesis Hnodup : NoDup (id <$> tasks).

Hypothesis Hrender : ∀ j t X,
  tasks !! j = Some t -> status t ∈ status_names -> ¬ X (id t) ->
  hoare (Inv X) (render_task ui tasks j (status t) t)
    (λ _, Inv (λ i, X i ∨ i = id t)) E.

Lemma inv_equiv (X X' : Z -> Prop) s :
  (∀ i, X i ↔ X' i) -> Inv X s -> Inv X' s.
Proof.
  intros HX (Hf & Hw & Hg). split_and!; [done| |].
  - intros k Hk. apply HX. by apply Hw.
  - intros Ht. apply Hg. by apply HX.
Qed.

Lemma column_hoare column :
  column ∈ status_names ->
  ∀ todo done X,
    tasks = done ++ todo ->
    (∀ t, t ∈ todo -> status t = column -> ¬ X (id t)) ->
    hoare (Inv X)
      (for_each (enumerate_from (length done) todo) (λ '(i, t),
         if bool_decide (status t = column)
         then render_task ui tasks i column t else mret tt))
      (λ _, Inv (λ i, X i ∨ ∃ t, t ∈ todo ∧ status t = column ∧ id t = i))
      E.
Proof.
  intros Hcol. induction todo as [|x todo IH]; intros done X Htasks Hfresh.
  - apply hoare_ret. intros s Hs. eapply inv_equiv; [|done].
    intros i. split; [auto|]. intros [?|(t & Ht & _)]; [done|].
    by apply elem_of_nil in Ht.
  - cbn [enumerate_from for_each].
    eapply hoare_bind
      with (R := λ _, Inv (λ i, X i ∨ (status x = column ∧ i = id x))).
    + case_bool_decide as Hc.
      * eapply hoare_conseq.
        -- rewrite <- Hc. apply (Hrender (length done) x X).
           ++ rewrite Htasks. by apply list_lookup_middle.
           ++ by rewrite Hc.
           ++ apply Hfresh; [apply list_elem_of_here|done].
        -- done.
        -- intros ? s Hs. eapply inv_equiv; [|exact Hs]. intros i. tauto.
        -- done.
      * apply hoare_ret. intros s Hs. eapply inv_equiv; [|done].
        intros i. tauto.
    + intros ?.
      specialize (IH (done ++ [x])
                    (λ i, X i ∨ (status x = column ∧ i = id x))).
      rewrite length_app, Nat.add_1_r in IH.
      eapply hoare_conseq; [apply IH| | |]; try done.
      * by rewrite <- app_assoc.
      * intros t Ht Hst [HX|[_ Hid]].
        -- revert HX. apply Hfresh; [by apply list_elem_of_further|done].
        -- rewrite Htasks, fmap_app, fmap_cons in Hnodup.
           apply NoDup_app in Hnodup as (_ & _ & Hnd).
           apply NoDup_cons in Hnd as [Hnd _]. apply Hnd.
           rewrite <- Hid. by apply list_elem_of_fmap_2.
      * intros ? s Hs. eapply inv_equiv; [|exact Hs]. intros i. split.
        -- intros [[HX|[Hc ->]]|(t & Ht & Hst & Hid)]; [by left| |].
           ++ right. exists x. split_and!; [apply list_elem_of_here|done..].
           ++ right. exists t. split_and!; [by apply list_elem_of_further|done..].
        -- intros [HX|(t & Ht & Hst & Hid)]; [by left; left|].
           apply elem_of_cons in Ht as [->|Ht]; [by left; right|].
           right. by exists t.
Qed.

Lemma id_inj t t' : t ∈ tasks -> t' ∈ tasks -> id t = id t' -> t = t'.
Proof.
  intros Ht Ht' Hid.
  apply list_elem_of_lookup in Ht as [j Hj].
  apply list_elem_of_lookup in Ht' as [j' Hj'].
  assert (j = j') as ->; [|congruence].
  eapply NoDup_lookup; [exact Hnodup| |].
  - rewrite list_lookup_fmap, Hj. reflexivity.
  - rewrite list_lookup_fmap, Hj'. cbn. by rewrite Hid.
Qed.

Lemma columns_hoare :
  ∀ cols X,
    NoDup cols -> (∀ c, c ∈ cols -> c ∈ status_names) ->
    (∀ t, t ∈ tasks -> status t ∈ cols -> ¬ X (id t)) ->
    hoare (Inv X) (for_each cols (board_column ui tasks))
      (λ _, Inv (λ i, X i ∨ ∃ t, t ∈ tasks ∧ status t ∈ cols ∧ id t = i))
      E.
Proof.
  induction cols as [|c cols IH]; intros X Hnd Hsub Hfresh.
  - apply hoare_ret. intros s Hs. eapply inv_equiv; [|done].
    intros i. split; [auto|]. intros [?|(t & _ & Ht & _)]; [done|].
    by apply elem_of_nil in Ht.
  - cbn [for_each]. apply NoDup_cons in Hnd as [Hc Hnd].
    eapply hoare_bind.
    + apply (column_hoare c (Hsub c (list_elem_of_here _ _)) tasks [] X);
        [done|].
      intros t Ht Hst. apply Hfresh; [done|]. rewrite Hst.
      apply list_elem_of_here.
    + intros ?. eapply hoare_conseq; [apply IH| | |]; try done.
      * intros c' Hc'. apply Hsub. by apply list_elem_of_further.
      * intros t Ht Hst [HX|(t' & Ht' & Hst' & Hid)].
        -- revert HX. apply Hfresh; [done|by apply list_elem_of_further].
        -- apply (id_inj t' t Ht' Ht) in Hid as ->. by subst c.
      * intros ? s Hs. eapply inv_equiv; [|exact Hs]. intros i. split.
        -- intros [[HX|(t & Ht & Hst & Hid)]|(t & Ht & Hst & Hid)];
             [by left| |].
           ++ right. exists t. split_and!; [done| |done]. rewrite Hst.
              apply list_elem_of_here.
           ++ right. exists t. split_and!; [done| |done].
              by apply list_elem_of_further.
        -- intros [HX|(t & Ht & Hst & Hid)]; [by left; left|].
           apply elem_of_cons in Hst as [Hst|Hst].
           ++ left. right. by exists t.
           ++ right. by exists t.
Qed.

Lemma status_names_NoDup : NoDup status_names.
Proof. compute_done. Qed.

Lemma board_hoare :
  hoare (λ s, files s = d0 ∧ registry s = ∅) (board ui tasks)
    (λ _ s, files s = d0
            ∧ ((∃ t, t ∈ tasks ∧ status t ∈ status_names ∧ id t = target)
               -> G))
    E.
Proof.
  eapply hoare_conseq.
  - apply (columns_hoare status_names (λ _, False)).
    + apply status_names_NoDup.
    + done.
    + auto.
  - intros s [Hf Hr]. split_and!; [done| |done].
    intros k Hk. rewrite Hr in Hk. by apply not_elem_of_empty in Hk.
  - intros ? s (Hf & _ & Hg). split; [done|]. intros Ht. apply Hg. by right.
  - done.
Qed.

End BoardRun.

(** *** Runs that reach the board *)

Lemma metrics_Ret df s :
  ∃ s', metrics df s = Ret tt s' ∧ files s' = files s
        ∧ registry s' = registry s.
Proof.
  unfold metrics. case_bool_decide; eexists; (split; [reflexivity|done]).
Qed.

Lemma deadline_warnings_Ret tick df s :
  ∃ s', deadline_warnings tick df s = Ret tt s' ∧ files s' = files s.
Proof.
  unfold deadline_warnings. case_bool_decide; [|by eexists].
  do 3 (rewrite bind_unfold; cbn [datetime_now]).
  rewrite bind_unfold.
  case_bool_decide; case_bool_decide; cbn; eexists;
    (split; [reflexivity|done]).
Qed.

(** A run whose form was not sent, in terms of what its board does. *)
Lemma run_board tick ui s tasks (Q : state -> Prop) (E : stop -> state -> Prop) :
  stored s = Some tasks ->
  form_submitted (task_form ui) = false ->
  hoare (λ s', files s' = files s ∧ registry s' = ∅) (board ui tasks)
    (λ _ s', files s' = files s ∧ Q s') E ->
  (∀ s' e, Q s' -> Q (with_element e s')) ->
  (∀ s', Q s' -> Q (with_read s')) ->
  match run tick ui s with
  | Ret _ s' => files s' = files s ∧ ∃ s'', Q s''
  | Halt h s' => E h s'
  end.
Proof.
  intros Hts Hsub Hboard HQe HQr. unfold run. rewrite app_unfold.
  rewrite (load_tasks_stored (fresh s) tasks) by done.
  rewrite sidebar_idle by done.
  rewrite bind_unfold. cbn [emit]. rewrite bind_unfold.
  destruct (metrics_Ret tasks
              (with_element (Calendar (calendar_events tasks))
                 (with_read (fresh s)))) as (s1 & -> & Hf1 & Hr1).
  rewrite bind_unfold. specialize (Hboard s1).
  destruct (board ui tasks s1) as [[] s2|h s2].
  - destruct Hboard as [Hf2 HQ]; [by rewrite Hf1, Hr1|].
    destruct (deadline_warnings_Ret tick tasks s2) as (s3 & -> & Hf3).
    split; [congruence|]. by exists s2.
  - apply Hboard. by rewrite Hf1, Hr1.
Qed.

Section Quiet.

Variable ui : frontend.
Variable tasks : list Task.
Variable d0 : option json_text * gmap string (list byte).

Lemma within_fresh (X : Z -> Prop) s i :
  within X s -> ¬ X i -> ∀ pfx, (pfx, i) ∉ registry s.
Proof. intros Hw HX pfx Hin. apply HX. by apply (Hw _ Hin). Qed.

Lemma within_shown (X : Z -> Prop) s t :
  within X s -> within (λ i, X i ∨ i = id t) (shown t s).
Proof.
  intros Hw k. unfold shown. cbn.
  rewrite !elem_of_union, !elem_of_singleton.
  intros [->|[->|[->|Hk]]]; cbn; auto.
Qed.

(** A card none of whose widgets was used is shown and passed. *)
Lemma render_quiet target (G : Prop) E j t X :
  untouched ui (id t) -> status t ∈ status_names -> ¬ X (id t) ->
  (target = id t -> G) ->
  hoare (inv d0 target G X) (render_task ui tasks j (status t) t)
    (λ _, inv d0 target G (λ i, X i ∨ i = id t)) E.
Proof.
  intros Hun Hst HX Hg s (Hf & Hw & HG).
  rewrite render_task_untouched; [|done|done|by eapply within_fresh].
  split_and!; [done|by apply within_shown|].
  intros [?|?]; auto.
Qed.

(** When no card that is shown had a widget used, the board is passed
    without a stop and without a change. *)
Lemma board_quiet :
  NoDup (id <$> tasks) ->
  (∀ t, t ∈ tasks -> status t ∈ status_names -> untouched ui (id t)) ->
  hoare (λ s, files s = d0 ∧ registry s = ∅) (board ui tasks)
    (λ _ s, files s = d0 ∧ True) (λ _ _, False).
Proof.
  intros Hnd Hun. eapply hoare_conseq.
  - apply (board_hoare ui tasks d0 0 True (λ _ _, False) Hnd).
    intros j t X Hj Hst HX. apply render_quiet; try done.
    apply Hun; [|done]. by eapply list_elem_of_lookup_2.
  - done.
  - intros ? s [Hf _]. done.
  - done.
Qed.

End Quiet.

Lemma run_quiet tick ui s tasks :
  stored s = Some tasks ->
  form_submitted (task_form ui) = false ->
  NoDup (id <$> tasks) ->
  (∀ t, t ∈ tasks -> status t ∈ status_names -> untouched ui (id t)) ->
  ∃ s', run tick ui s = Ret tt s' ∧ files s' = files s.
Proof.
  intros Hts Hsub Hnd Hun.
  pose proof (run_board tick ui s tasks (λ _, True) (λ _ _, False)
                Hts Hsub (board_quiet ui tasks (files s) Hnd Hun)) as H.
  destruct (run tick ui s) as [[] s'|h s'].
  - exists s'. split; [done|]. by apply H.
  - by destruct H.
Qed.

(** The board when only the widgets of one task were used: the other cards
    are passed, and what happens is what the card of that task does. *)
Lemma board_target ui tasks d0 (G : Prop) (E : stop -> state -> Prop) j t :
  NoDup (id <$> tasks) ->
  tasks !! j = Some t ->
  status t ∈ status_names ->
  (∀ i, i ≠ id t -> untouched ui i) ->
  (∀ s, files s = d0 -> (∀ pfx, (pfx, id t) ∉ registry s) ->
        match render_task ui tasks j (status t) t s with
        | Ret _ s' => G ∧ s' = shown t s
        | Halt h s' => E h s'
        end) ->
  hoare (λ s, files s = d0 ∧ registry s = ∅) (board ui tasks)
    (λ _ s, files s = d0 ∧ G) E.
Proof.
  intros Hnd Hj Hst Hun Ht. eapply hoare_conseq.
  - apply (board_hoare ui tasks d0 (id t) G E Hnd).
    intros j0 t0 X Hj0 Hst0 HX.
    destruct (decide (id t0 = id t)) as [Hid|Hid].
    + assert (j0 = j) as ->.
      { eapply NoDup_lookup; [exact Hnd| |].
        - rewrite list_lookup_fmap, Hj0. reflexivity.
        - rewrite list_lookup_fmap, Hj. cbn. by rewrite Hid. }
      assert (t0 = t) as -> by congruence.
      intros s (Hf & Hw & HG). specialize (Ht s Hf (within_fresh X s _ Hw HX)).
      destruct (render_task ui tasks j (status t) t s) as [[] s'|h s'];
        [|done].
      destruct Ht as [Hg ->]. split_and!; [done|by apply within_shown|done].
    + apply render_quiet; [by apply Hun|done|done|].
      intros Heq. by rewrite Heq in Hid.
  - done.
  - intros ? s [Hf Hg]. split; [done|]. apply Hg. exists t.
    split_and!; [by eapply list_elem_of_lookup_2|done..].
  - done.
Qed.

(** *** The three actions on a card *)

Lemma setStatus_untouched i k i' : i' ≠ i -> untouched (setStatus i k) i'.
Proof. intros Hne pfx. cbn. apply lookup_singleton_ne. congruence. Qed.

Lemma delete_task_untouched i i' : i' ≠ i -> untouched (delete_task i) i'.
Proof. intros Hne pfx. cbn. apply lookup_singleton_ne. congruence. Qed.

Lemma update_untouched i n d dl p i' :
  i' ≠ i -> untouched (update i n d dl p) i'.
Proof.
  intros Hne pfx. cbn. unfold put.
  destruct n, d, dl, p; cbn;
    repeat (rewrite lookup_insert_ne by congruence); apply lookup_empty.
Qed.

Lemma run_setStatus tick s tasks j t k :
  stored s = Some tasks ->
  NoDup (id <$> tasks) ->
  tasks !! j = Some t ->
  status t ∈ status_names ->
  let v := default (status t) (status_names !! k) in
  match run tick (setStatus (id t) k) s with
  | Ret _ s' => v = status t ∧ files s' = files s
  | Halt h s' =>
      h = Rerun ∧ v ≠ status t
      ∧ files s' = (Some (Encodes (<[j := set_status v t]> tasks)), assets s)
  end.
Proof.
  intros Hts Hnd Hj Hst v.
  set (E := λ (h : stop) (s' : state),
         h = Rerun ∧ v ≠ status t
         ∧ files s' = (Some (Encodes (<[j := set_status v t]> tasks)),
                       assets s)).
  assert (hoare (λ s', files s' = files s ∧ registry s' = ∅)
            (board (setStatus (id t) k) tasks)
            (λ _ s', files s' = files s ∧ v = status t) E) as Hb.
  { apply (board_target _ _ _ _ _ j t); try done.
    - intros i Hi. by apply setStatus_untouched.
    - intros s0 Hf0 Hfresh.
      rewrite (render_task_status _ _ _ _ k); try done.
      + fold v. case_decide; [done|]. unfold E. split_and!; [done..|].
        same_files Hf0.
      + cbn. by apply lookup_singleton_ne.
      + cbn. apply lookup_singleton_eq.
      + cbn. by apply lookup_singleton_ne. }
  pose proof (run_board tick (setStatus (id t) k) s tasks
                (λ _, v = status t) E Hts eq_refl Hb) as H.
  destruct (run tick (setStatus (id t) k) s) as [[] s'|h s'].
  - destruct H as [Hf [_ Hv]]; done.
  - by apply H.
Qed.

Lemma run_delete tick s tasks j t :
  stored s = Some tasks ->
  NoDup (id <$> tasks) ->
  tasks !! j = Some t ->
  status t ∈ status_names ->
  ∃ ts' s', list_remove t tasks = Some ts'
    ∧ run tick (delete_task (id t)) s = Halt Rerun s'
    ∧ files s' = (Some (Encodes ts'), assets s).
Proof.
  intros Hts Hnd Hj Hst.
  assert (t ∈ tasks) as Hin by by eapply list_elem_of_lookup_2.
  destruct (list_remove_elem t tasks Hin) as [ts' Hts'].
  exists ts'.
  set (E := λ (h : stop) (s' : state),
         h = Rerun ∧ files s' = (Some (Encodes ts'), assets s)).
  assert (hoare (λ s', files s' = files s ∧ registry s' = ∅)
            (board (delete_task (id t)) tasks)
            (λ _ s', files s' = files s ∧ False) E) as Hb.
  { apply (board_target _ _ _ _ _ j t); try done.
    - intros i Hi. by apply delete_task_untouched.
    - intros s0 Hf0 Hfresh.
      rewrite (render_task_delete _ _ _ _ ts'); try done.
      + unfold E. split; [done|]. same_files Hf0.
      + cbn. by apply lookup_singleton_ne.
      + cbn. by apply lookup_singleton_ne.
      + cbn. apply lookup_singleton_eq. }
  pose proof (run_board tick (delete_task (id t)) s tasks
                (λ _, False) E Hts eq_refl Hb) as H.
  destruct (run tick (delete_task (id t)) s) as [[] s'|h s'].
  - destruct H as [_ [_ []]]; done.
  - destruct H as [-> Hf]; try done. by exists s'.
Qed.

Lemma update_edit i n d dl p :
  widgets (update i n d dl p) !! ("edit", i) = Some (WBool true).
Proof. cbn. apply lookup_insert_eq. Qed.

Lemma update_save i n d dl p :
  widgets (update i n d dl p) !! ("save", i) = Some (WBool true).
Proof.
  cbn. rewrite lookup_insert_ne by (by intros [=]). apply lookup_insert_eq.
Qed.

Lemma run_update tick s tasks j t n d dl p :
  stored s = Some tasks ->
  NoDup (id <$> tasks) ->
  tasks !! j = Some t ->
  status t ∈ status_names ->
  let ui := update (id t) n d dl p in
  ∃ s', files s' = (if decide (priority t ∈ priority_names)
                    then Some (Encodes (<[j := edited ui t]> tasks))
                    else tasks_json s, assets s)
    ∧ run tick ui s
      = Halt (if decide (priority t ∈ priority_names)
              then Rerun else Raised ValueError) s'.
Proof.
  intros Hts Hnd Hj Hst ui.
  pose proof (run_board tick ui s tasks
    (λ _, False)
    (λ h s',
       files s' = (if decide (priority t ∈ priority_names)
                   then Some (Encodes (<[j := edited ui t]> tasks))
                   else tasks_json s, assets s)
       ∧ h = if decide (priority t ∈ priority_names)
             then Rerun else Raised ValueError)
    Hts eq_refl) as H.
  assert (hoare (λ s', files s' = files s ∧ registry s' = ∅) (board ui tasks)
    (λ _ s', files s' = files s ∧ False)
    (λ h s',
       files s' = (if decide (priority t ∈ priority_names)
                   then Some (Encodes (<[j := edited ui t]> tasks))
                   else tasks_json s, assets s)
       ∧ h = if decide (priority t ∈ priority_names)
             then Rerun else Raised ValueError)) as Hb.
  { apply (board_target _ _ _ _ _ j t); try done.
    + intros i Hi. by apply update_untouched.
    + intros s0 Hf0 Hfresh.
      destruct (render_task_save ui tasks j (status t) t s0)
        as (s1 & Hf1 & ->);
        [apply update_edit|apply update_save|done|].
      case_decide; (split; [|done]); rewrite Hf0 in Hf1;
        same_files Hf1. }
  destruct (run tick ui s) as [[] s'|h s'].
  - destruct H as [_ [_ []]]; done.
  - destruct H as [Hf ->]; try done. by exists s'.
Qed.

(** *** Runs depend on the widgets of the tasks at hand only *)

Lemma for_each_ext {A} (l : list A) (f g : A -> M unit) :
  (∀ x, x ∈ l -> f x = g x) -> for_each l f = for_each l g.
Proof.
  induction l as [|x l IH]; intros H; [done|]. cbn [for_each].
  rewrite (H x) by apply list_elem_of_here.
  rewrite IH; [done|]. intros y Hy. apply H. by apply list_elem_of_further.
Qed.

Lemma render_task_ext ui1 ui2 tasks j column t :
  (∀ pfx, widgets ui1 !! (pfx, id t) = widgets ui2 !! (pfx, id t)) ->
  render_task ui1 tasks j column t = render_task ui2 tasks j column t.
Proof.
  intros H. unfold render_task, st_checkbox, st_button, st_text_input,
    st_text_area, st_date_input, st_selectbox.
  by rewrite !H.
Qed.

Lemma board_ext ui1 ui2 tasks :
  (∀ t pfx, t ∈ tasks ->
            widgets ui1 !! (pfx, id t) = widgets ui2 !! (pfx, id t)) ->
  board ui1 tasks = board ui2 tasks.
Proof.
  intros H. unfold board. apply for_each_ext. intros column _.
  unfold board_column. apply for_each_ext. intros [j t] Hjt.
  apply elem_of_enumerate_from in Hjt as [_ Hjt].
  case_bool_decide; [|done]. apply render_task_ext.
  intros pfx. apply H. by eapply list_elem_of_lookup_2.
Qed.

Lemma run_ext tick ui1 ui2 s :
  task_form ui1 = task_form ui2 ->
  (∀ t pfx, t ∈ collection s ->
            widgets ui1 !! (pfx, id t) = widgets ui2 !! (pfx, id t)) ->
  run tick ui1 s = run tick ui2 s.
Proof.
  intros Hform Hw. unfold run. rewrite !app_unfold.
  destruct (load_tasks (fresh s)) as [tasks s1|h s1] eqn:Hload; [|done].
  apply load_tasks_Ret in Hload as [-> Hts].
  assert (sidebar tick ui1 tasks = sidebar tick ui2 tasks) as ->.
  { unfold sidebar. by rewrite Hform. }
  destruct (sidebar tick ui2 tasks (fresh s)) as [[] s2|h s2]; [|done].
  rewrite (board_ext ui1 ui2 tasks); [done|].
  intros t pfx Ht. apply Hw. unfold collection.
  change (stored (fresh s)) with (stored s) in Hts. by rewrite Hts.
Qed.

Lemma run_idle_files tick s :
  files (final_state (run tick idle s)) = files s.
Proof.
  destruct (stored s) as [ts|] eqn:Hts.
  - destruct (run_cases tick idle s ts Hts) as [_ [H|[H|H]]].
    + done.
    + by destruct H as (_ & [=] & _).
    + destruct H as (_ & _ & ts' & _ & H). by apply step_no_widgets in H.
  - by rewrite run_malformed.
Qed.

(** ** Editing a task *)

Lemma edited_update t n d dl p :
  edited (update (id t) n d dl p) t
  = {| id := id t;
       name := default (name t) n;
       description := default (description t) d;
       deadline := from_option str_date (deadline t) dl;
       created := created t;
       status := status t;
       priority := match p with
                   | Some k => default (priority t) (priority_names !! k)
                   | None => priority t
                   end;
       attachment := attachment t |}.
Proof.
  unfold edited, update, put.
  destruct n, d, dl, p; cbn [widgets fmap option_fmap option_map];
    repeat (rewrite lookup_insert_eq
            || rewrite lookup_insert_ne by (by intros [=])
            || rewrite lookup_empty);
    reflexivity.
Qed.


(** ** Deleting a task *)

(** C4 (amended). Deleting a task of the collection (ids distinct, status
    among the listed ones) takes it out of the list and saves the list, so
    that loading returns a list without its id.  For an id no task has,
    the run is the run in which nothing was pressed: no error is raised
    or shown for it, and the list and the files stay as they were. *)
Theorem delete_spec (tick : nat -> datetime) (s : state) (tasks : list Task)
    (i : Z) :
  stored s = Some tasks ->
  let o := run tick (delete_task i) s in
  (∀ j t, tasks !! j = Some t -> id t = i ->
          NoDup (id <$> tasks) -> status t ∈ status_names ->
          stopped o = Some Rerun
          ∧ ∃ l1 l2, tasks = l1 ++ (t :: l2)
                     ∧ load_tasks (final_state o)
                       = Ret (l1 ++ l2) (final_state o)
                     ∧ (i ∉ id <$> (l1 ++ l2))
                     ∧ assets (final_state o) = assets s)
  ∧ (i ∉ id <$> tasks ->
     o = run tick idle s
     ∧ files (final_state o) = files s
     ∧ stored (final_state o) = Some tasks).
Proof.
  intros Hts o. split.
  - intros j t Hj <- Hnd Hst.
    destruct (run_delete tick s tasks j t Hts Hnd Hj Hst)
      as (ts' & s' & Hrem & Hrun & Hf).
    subst o. rewrite Hrun. cbn [stopped final_state]. split; [done|].
    destruct (list_remove_Some _ _ _ Hrem) as (l1 & l2 & -> & Hni & ->).
    exists l1, l2. injection Hf as Hf Ha. split_and!; [done| | |done].
    + apply load_tasks_stored. unfold stored. by rewrite Hf.
    + rewrite fmap_app, fmap_cons in Hnd.
      apply NoDup_app in Hnd as (_ & Hd & Hnd).
      apply NoDup_cons in Hnd as [Hnd _].
      rewrite fmap_app, elem_of_app. intros [H|H]; [|done].
      apply (Hd _ H). apply list_elem_of_here.
  - intros Hni.
    assert (o = run tick idle s) as Ho.
    { apply run_ext; [done|]. intros t pfx Ht. cbn.
      rewrite lookup_empty. apply lookup_singleton_ne. intros [= _ Heq].
      apply Hni. rewrite Heq. apply list_elem_of_fmap_2.
      unfold collection in Ht. by rewrite Hts in Ht. }
    split; [done|]. rewrite Ho.
    pose proof (run_idle_files tick s) as Hf. split; [done|].
    unfold stored in *. injection Hf as -> _. done.
Qed.

(** ** Setting the status or the priority twice *)

Lemma stored_of_files s1 s : files s1 = files s -> stored s1 = stored s.
Proof. unfold files, stored. by intros [= -> _]. Qed.

Lemma stored_encodes s1 ts a :
  files s1 = (Some (Encodes ts), a) -> stored s1 = Some ts.
Proof. unfold files, stored. by intros [= -> _]. Qed.

Lemma insert_same_ids (tasks : list Task) j t t' :
  tasks !! j = Some t -> id t' = id t ->
  id <$> <[j := t']> tasks = id <$> tasks.
Proof.
  intros Hj Hid. rewrite list_fmap_insert, Hid.
  apply list_insert_id. by rewrite list_lookup_fmap, Hj.
Qed.

Lemma default_lookup_elem (options : list string) k c :
  c ∈ options -> default c (options !! k) ∈ options.
Proof.
  intros Hc. destruct (options !! k) as [v|] eqn:E; [|done].
  by eapply list_elem_of_lookup_2.
Qed.

Lemma default_lookup_idem (options : list string) k c :
  default (default c (options !! k)) (options !! k) = default c (options !! k).
Proof. by destruct (options !! k). Qed.

Lemma setStatus_idempotent tick s i k :
  NoDup (id <$> collection s) ->
  let s1 := final_state (run tick (setStatus i k) s) in
  let s2 := final_state (run tick (setStatus i k) s1) in
  files s2 = files s1.
Proof.
  intros Hnd s1 s2. subst s1 s2. unfold collection in Hnd.
  destruct (stored s) as [tasks|] eqn:Hts; cbn in Hnd.
  2:{ rewrite (run_malformed tick _ s) by done. cbn [final_state].
      by rewrite (run_malformed tick _ (fresh s)). }
  destruct (decide (Exists (λ t, id t = i ∧ status t ∈ status_names) tasks))
    as [Hex|Hex].
  - apply Exists_exists in Hex as (t & Ht & <- & Hst).
    apply list_elem_of_lookup in Ht as [j Hj].
    pose proof (run_setStatus tick s tasks j t k Hts Hnd Hj Hst) as H1.
    cbv zeta in H1.
    destruct (run tick (setStatus (id t) k) s) as [[] s1|h s1];
      cbn [final_state].
    + destruct H1 as [Hv Hf1].
      pose proof (run_setStatus tick s1 tasks j t k) as H2. cbv zeta in H2.
      destruct (run tick (setStatus (id t) k) s1) as [[] s2|h s2];
        cbn [final_state].
      * apply H2; try done. by rewrite (stored_of_files _ _ Hf1).
      * destruct H2 as (_ & Hne & _); try done.
        by rewrite (stored_of_files _ _ Hf1).
    + destruct H1 as (-> & Hv & Hf1).
      set (v := default (status t) (status_names !! k)) in *.
      pose proof (run_setStatus tick s1 _ j (set_status v t) k
                    (stored_encodes _ _ _ Hf1)) as H2.
      cbv zeta in H2.
      assert (default v (status_names !! k) = v) as Hvv
        by apply default_lookup_idem.
      change (id (set_status v t)) with (id t) in H2.
      change (status (set_status v t)) with v in H2.
      rewrite Hvv in H2.
      destruct (run tick (setStatus (id t) k) s1) as [[] s2|h s2];
        cbn [final_state].
      * apply H2.
        -- by rewrite (insert_same_ids tasks j t).
        -- apply list_lookup_insert_eq. by eapply lookup_lt_Some.
        -- by apply default_lookup_elem.
      * destruct H2 as (_ & Hne & _); try done.
        -- by rewrite (insert_same_ids tasks j t).
        -- apply list_lookup_insert_eq. by eapply lookup_lt_Some.
        -- by apply default_lookup_elem.
  - assert (∀ t, t ∈ tasks -> status t ∈ status_names ->
                 untouched (setStatus i k) (id t)) as Hun.
    { intros t Ht Hst. apply setStatus_untouched. intros Hid.
      apply Hex, Exists_exists. by exists t. }
    destruct (run_quiet tick (setStatus i k) s tasks Hts eq_refl Hnd Hun)
      as (s1 & -> & Hf1). cbn [final_state].
    destruct (run_quiet tick (setStatus i k) s1 tasks) as (s2 & -> & Hf2);
      try done.
    by rewrite (stored_of_files _ _ Hf1).
Qed.

Lemma setPriority_idempotent tick s i k :
  NoDup (id <$> collection s) ->
  let s1 := final_state (run tick (setPriority i k) s) in
  let s2 := final_state (run tick (setPriority i k) s1) in
  files s2 = files s1.
Proof.
  intros Hnd s1 s2. subst s1 s2. unfold collection in Hnd.
  destruct (stored s) as [tasks|] eqn:Hts; cbn in Hnd.
  2:{ rewrite (run_malformed tick _ s) by done. cbn [final_state].
      by rewrite (run_malformed tick _ (fresh s)). }
  unfold setPriority.
  destruct (decide (Exists (λ t, id t = i ∧ status t ∈ status_names) tasks))
    as [Hex|Hex].
  - apply Exists_exists in Hex as (t & Ht & <- & Hst).
    apply list_elem_of_lookup in Ht as [j Hj].
    destruct (run_update tick s tasks j t None None None (Some k)
                Hts Hnd Hj Hst) as (s1 & Hf1 & ->).
    cbn [final_state]. rewrite edited_update in Hf1.
    set (t1 := {| id := id t; name := default (name t) None;
                  description := default (description t) None;
                  deadline := from_option str_date (deadline t) None;
                  created := created t; status := status t;
                  priority := default (priority t) (priority_names !! k);
                  attachment := attachment t |}) in *.
    destruct (decide (priority t ∈ priority_names)) as [Hp|Hp].
    + destruct (run_update tick s1 _ j t1 None None None (Some k)
                  (stored_encodes _ _ _ Hf1)) as (s2 & Hf2 & Hrun).
      * by rewrite (insert_same_ids tasks j t).
      * apply list_lookup_insert_eq. by eapply lookup_lt_Some.
      * done.
      * change (id t1) with (id t) in Hrun. rewrite Hrun.
        cbn [final_state]. rewrite Hf2, Hf1.
        rewrite decide_True by (by apply default_lookup_elem).
        rewrite edited_update.
        assert ({| id := id t1; name := default (name t1) None;
                   description := default (description t1) None;
                   deadline := from_option str_date (deadline t1) None;
                   created := created t1; status := status t1;
                   priority := default (priority t1) (priority_names !! k);
                   attachment := attachment t1 |} = t1) as ->.
        { unfold t1. cbn. by rewrite default_lookup_idem. }
        rewrite list_insert_insert_eq.
        unfold files in Hf1. by injection Hf1 as _ ->.
    + destruct (run_update tick s1 tasks j t None None None (Some k))
        as (s2 & Hf2 & ->); try done.
      * by rewrite (stored_of_files s1 s).
      * cbn [final_state]. rewrite Hf2, Hf1.
        rewrite decide_False by done.
        unfold files in Hf1. by injection Hf1 as -> ->.
  - assert (∀ t, t ∈ tasks -> status t ∈ status_names ->
                 untouched (update i None None None (Some k)) (id t)) as Hun.
    { intros t Ht Hst. apply update_untouched. intros Hid.
      apply Hex, Exists_exists. by exists t. }
    destruct (run_quiet tick (update i None None None (Some k)) s tasks
                Hts eq_refl Hnd Hun) as (s1 & -> & Hf1).
    cbn [final_state].
    destruct (run_quiet tick (update i None None None (Some k)) s1 tasks)
      as (s2 & -> & Hf2); try done.
    by rewrite (stored_of_files _ _ Hf1).
Qed.

(** C6 (amended). In a collection whose ids are distinct, choosing a
    status for a task twice leaves the files, and so the list loaded from
    them, as choosing it once does; the same holds for choosing a
    priority. *)
Theorem status_priority_idempotent (tick : nat -> datetime) (s : state)
    (i : Z) (k : nat) :
  NoDup (id <$> collection s) ->
  let once ui := final_state (run tick ui s) in
  let twice ui := final_state (run tick ui (once ui)) in
  files (twice (setStatus i k)) = files (once (setStatus i k))
  ∧ collection (twice (setStatus i k)) = collection (once (setStatus i k))
  ∧ files (twice (setPriority i k)) = files (once (setPriority i k))
  ∧ collection (twice (setPriority i k)) = collection (once (setPriority i k)).
Proof.
  intros Hnd once twice.
  pose proof (setStatus_idempotent tick s i k Hnd) as H1.
  pose proof (setPriority_idempotent tick s i k Hnd) as H2.
  cbv zeta in H1, H2. subst once twice. cbv beta.
  split_and!; try done; unfold collection; by erewrite stored_of_files.
Qed.

(** ** What holds of every collection the program can produce *)





Section Reachable.

Variable tick : nat -> datetime.
Variable allowed : frontend -> Prop.


End Reachable.



(** ** The properties on a small board *)


Lemma delete_spec_witness :
  let o := run sample_tick (delete_task 1736400000000001) sample_state in
  stopped o = Some Rerun
  ∧ collection (final_state o)
    = [ {| id := 1736400000000002; name := "Review";
           description := "second pass"; deadline := ISO 20210;
           created := ISO 20097; status := "In Progress"; priority := "Low";
           attachment := "assets/notes.pdf" |} ].
Proof.
  intros o.
  destruct (delete_spec sample_tick sample_state sample_tasks
              1736400000000001 eq_refl) as [H _].
  destruct (H 0%nat
              {| id := 1736400000000001; name := "Write spec";
                 description := ""; deadline := ISO 20200;
                 created := ISO 20097; status := "To Do";
                 priority := "High"; attachment := "" |})
    as (H1 & l1 & l2 & Hl & H2 & _);
    [reflexivity|reflexivity|compute_done|compute_done|].
  split; [exact H1|].
  apply load_tasks_Ret in H2 as [_ H2].
  apply (f_equal (default [])) in H2.
  destruct l1 as [|x l1].
  - injection Hl as <-. exact H2.
  - injection Hl as _ Hl. destruct l1 as [|y l1]; [discriminate Hl|].
    injection Hl as _ Hl. destruct l1; discriminate Hl.
Defined.

(** Pressing "Delete Task" for an id no task has raises nothing and shows
    no message: the run ends as every run does. *)
Lemma delete_absent_no_error :
  let o := run sample_tick (delete_task 7) sample_state in
  stopped o = None
  ∧ Forall (λ e, ∀ m, e ≠ Error m ∧ e ≠ Warning m) (page (final_state o))
  ∧ files (final_state o) = files sample_state.
Proof.
  cbv zeta. split_and!.
  - reflexivity.
  - vm_compute.
    repeat (apply Forall_cons; split; [intros m; split; discriminate|]).
    apply Forall_nil_2.
  - reflexivity.
Qed.

Lemma status_priority_idempotent_witness :
  let once ui := final_state (run sample_tick ui sample_state) in
  let twice ui := final_state (run sample_tick ui (once ui)) in
  status <$> collection (once (setStatus 1736400000000001 2))
    = ["Done"; "In Progress"]
  ∧ files (twice (setStatus 1736400000000001 2))
    = files (once (setStatus 1736400000000001 2))
  ∧ files (twice (setPriority 1736400000000001 0))
    = files (once (setPriority 1736400000000001 0)).
Proof.
  intros once twice.
  destruct (status_priority_idempotent sample_tick sample_state
              1736400000000001 2) as (H1 & _ & _ & _); [compute_done|].
  destruct (status_priority_idempotent sample_tick sample_state
              1736400000000001 0) as (_ & _ & H3 & _); [compute_done|].
  split_and!; [reflexivity|exact H1|exact H3].
Defined.

(** With two tasks of the same id, choosing "Done" a second time changes
    the second task: twice is not once. *)
Lemma setStatus_twice_differs :
  let tick := λ _ : nat, 1736500000000000 in
  let s1 := final_state (run tick (create "A" "" 20200 0 None) initial) in
  let s2 := final_state (run tick (create "B" "" 20200 0 None) s1) in
  let once := final_state (run tick (setStatus 1736500000000000 2) s2) in
  let twice := final_state (run tick (setStatus 1736500000000000 2) once) in
  id <$> collection s2 = [1736500000000000; 1736500000000000]
  ∧ status <$> collection once = ["Done"; "To Do"]
  ∧ status <$> collection twice = ["Done"; "Done"]
  ∧ files twice ≠ files once.
Proof.
  cbv zeta. split_and!; [reflexivity..|].
  intros H. apply (f_equal fst) in H. vm_compute in H. discriminate H.
Qed.



(** Saving an edit form whose title was emptied stores a task without a
    name. *)
Lemma update_empty_name :
  let o := run sample_tick
             (update 1736400000000001 (Some "") None None None)
             sample_state in
  stopped o = Some Rerun
  ∧ name <$> collection (final_state o) = [""; "Review"].
Proof. cbv zeta. split; reflexivity. Qed.

Lemma list_remove_first_witness :
  let t := {| id := 1736400000000002; name := "Review";
              description := "second pass"; deadline := ISO 20210;
              created := ISO 20097; status := "In Progress";
              priority := "Low"; attachment := "assets/notes.pdf" |} in
  let tasks := sample_tasks ++ sample_tasks in
  t ∈ tasks
  ∧ ∃ l1 l2, tasks = l1 ++ (t :: l2) ∧ (t ∉ l1)
             ∧ list_remove t tasks = Some (l1 ++ l2)
             ∧ length tasks = S (length (l1 ++ l2)).
Proof.
  intros t tasks.
  assert (t ∈ tasks) as Hin by compute_done.
  split; [exact Hin|].
  destruct (list_remove_first t tasks Hin) as (l1 & l2 & H1 & H2 & H3 & H4 & _).
  by exists l1, l2.
Defined.

(** * Further properties of the script *)

(** ** Colours, lines 51-52 *)

Lemma color_by_priority_cases p :
  color_by_priority p
  = if decide (p = "High") then "#ff4b4b"
    else if decide (p = "Medium") then "#ffa500"
    else if decide (p = "Low") then "#4bb543"
    else "#d3d3d3".
Proof.
  unfold color_by_priority.
  destruct (decide (p = "High")) as [->|H1]; [done|].
  rewrite lookup_insert_ne by done.
  destruct (decide (p = "Medium")) as [->|H2]; [done|].
  rewrite lookup_insert_ne by done.
  destruct (decide (p = "Low")) as [->|H3]; [done|].
  rewrite lookup_insert_ne by done. by rewrite lookup_empty.
Qed.

Lemma elem_of_priority_names p :
  p ∈ priority_names ↔ p = "Low" ∨ p = "Medium" ∨ p = "High".
Proof.
  unfold priority_names. rewrite !elem_of_cons, elem_of_nil. tauto.
Qed.

(** X1. [color_by_priority] gives the grey of its fallback exactly for the
    priorities that are not "Low", "Medium" or "High", and three different
    colours for these three. *)
Theorem color_by_priority_spec (p q : string) :
  (color_by_priority p = "#d3d3d3" ↔ p ∉ priority_names)
  ∧ (p ∈ priority_names -> q ∈ priority_names ->
     color_by_priority p = color_by_priority q -> p = q).
Proof.
  rewrite !elem_of_priority_names, !color_by_priority_cases. split.
  - destruct (decide (p = "High")) as [->|H1]; [split; [done|tauto]|].
    destruct (decide (p = "Medium")) as [->|H2]; [split; [done|tauto]|].
    destruct (decide (p = "Low")) as [->|H3]; [split; [done|tauto]|].
    split; [|done]. intros _ [? | [? | ?]]; done.
  - intros [-> | [-> | ->]] [-> | [-> | ->]]; cbn; done.
Qed.

Lemma color_by_priority_spec_witness :
  (("Urgent" ∉ priority_names) ∧ color_by_priority "Urgent" = "#d3d3d3")
  ∧ ("High" ∈ priority_names ∧ "High" ∈ priority_names
     ∧ color_by_priority "High" = color_by_priority "High" ∧ "High" = "High").
Proof.
  assert ("Urgent" ∉ priority_names) as Hu by compute_done.
  assert ("High" ∈ priority_names) as Hh by compute_done.
  split.
  - split; [exact Hu|].
    exact (proj2 (proj1 (color_by_priority_spec "Urgent" "Urgent")) Hu).
  - split_and!; [exact Hh|exact Hh|reflexivity|].
    exact (proj2 (color_by_priority_spec "High" "High") Hh Hh eq_refl).
Defined.

(** ** The status chart, lines 94-98 *)







(** ** The deadline lists, lines 167-170 *)

(** X3. The two deadline lists look at the deadline only: a change of the
    tasks that keeps their deadlines, such as marking them "Done", changes
    neither which tasks are due soon nor which are overdue. *)
Theorem deadline_lists_ignore_status (f : Task -> Task)
    (now1 now2 now3 : datetime) (df : list Task) :
  (∀ t, deadline (f t) = deadline t) ->
  upcoming now1 now2 (f <$> df) = f <$> upcoming now1 now2 df
  ∧ overdue now3 (f <$> df) = f <$> overdue now3 df.
Proof.
  intros Hf. unfold upcoming, overdue.
  split; induction df as [|t df IH]; try done; rewrite fmap_cons.
  - destruct (decide (to_datetime (deadline t) > now1
                      ∧ to_datetime (deadline t) <= now2 + timedelta_days 3))
      as [H|H].
    + rewrite !filter_cons_True; [|done|by rewrite Hf].
      by rewrite fmap_cons, IH.
    + rewrite !filter_cons_False; [done|done|by rewrite Hf].
  - destruct (decide (to_datetime (deadline t) < now3)) as [H|H].
    + rewrite !filter_cons_True; [|done|by rewrite Hf].
      by rewrite fmap_cons, IH.
    + rewrite !filter_cons_False; [done|done|by rewrite Hf].
Qed.

Lemma deadline_lists_ignore_status_witness :
  overdue (sample_tick 0) (set_status "Done" <$> sample_tasks)
  = set_status "Done" <$> overdue (sample_tick 0) sample_tasks.
Proof.
  destruct (deadline_lists_ignore_status (set_status "Done")
              0 0 (sample_tick 0) sample_tasks) as [_ H]; [done|exact H].
Defined.

Lemma midnight_gt d now : now < midnight d ↔ datetime_date now < d.
Proof.
  unfold midnight, datetime_date. pose proof us_per_day_pos as HD.
  pose proof (Z.mul_div_le now us_per_day HD) as H1.
  pose proof (Z.mul_succ_div_gt now us_per_day HD) as H2.
  split; intros H; nia.
Qed.

Lemma midnight_le d now : midnight d <= now ↔ d <= datetime_date now.
Proof. pose proof (midnight_gt d now). lia. Qed.

Lemma to_datetime_deadline t : to_datetime (deadline t) = midnight (deadline_day t).
Proof. unfold deadline_day. by destruct (deadline t). Qed.

(** X4. By the day: at an instant [now] the tasks due soon are those whose
    deadline is one, two or three days after the current day, and the
    overdue tasks are those whose deadline is an earlier day, or the
    current day once it has begun; a task due today is never due soon. *)
Theorem deadline_lists_by_day (now : datetime) (df : list Task) (t : Task) :
  (t ∈ upcoming now now df
     ↔ t ∈ df ∧ datetime_date now < deadline_day t
              ∧ deadline_day t <= datetime_date now + 3)
  ∧ (t ∈ overdue now df
       ↔ t ∈ df ∧ (deadline_day t < datetime_date now
                   ∨ (deadline_day t = datetime_date now
                      ∧ midnight (datetime_date now) < now))).
Proof.
  unfold upcoming, overdue. rewrite !list_elem_of_filter.
  rewrite to_datetime_deadline.
  pose proof (midnight_gt (deadline_day t) now) as Hgt.
  pose proof (midnight_le (deadline_day t - 3) now) as Hle.
  rewrite <- (Z.add_opp_r _ 3), midnight_add in Hle.
  pose proof (midnight_le (deadline_day t + 1) now) as Hlt.
  rewrite midnight_add in Hlt.
  unfold timedelta_days in *.
  pose proof (midnight_today_le now) as Htoday.
  split; split.
  - intros [[H1 H2] Hin]. split; [done|]. lia.
  - intros (Hin & H1 & H2). split; [|done]. lia.
  - intros [H Hin]. split; [done|].
    destruct (decide (deadline_day t = datetime_date now)) as [He|He].
    + right. split; [done|]. by rewrite <- He.
    + left. unfold midnight in *. pose proof us_per_day_pos. nia.
  - intros (Hin & [H|[He H]]); (split; [|done]).
    + unfold midnight in *. pose proof us_per_day_pos. nia.
    + by rewrite He.
Qed.

(** ** Uploads, lines 68-74 *)

Lemma run_create tick s ts n d dl p f :
  n ≠ "" -> stored s = Some ts ->
  run tick (create n d dl p f) s
  = Halt Rerun
      {| tasks_json :=
           Some (Encodes (ts ++ [new_task tick
                                   (task_form (create n d dl p f)) (reads s)]));
         assets := uploaded (task_form (create n d dl p f)) (assets s);
         reads := S (S (S (reads s)));
         registry := ∅;
         page := [Success "Task added!"] |}.
Proof.
  intros Hn Hts. unfold run. rewrite app_unfold.
  rewrite (load_tasks_stored (fresh s) ts) by done.
  by rewrite sidebar_create.
Qed.

(** X5. A task created with an upload refers to the stored file: its
    attachment is the path "assets/" followed by the file's name, and that
    path holds the uploaded bytes, whatever was stored there before. *)
Theorem upload_stored (tick : nat -> datetime) (s : state) (ts : list Task)
    (n d : string) (dl : date) (p : nat) (up : upload) :
  n ≠ "" ->
  stored s = Some ts ->
  let s' := final_state (run tick (create n d dl p (Some up)) s) in
  ∃ t, collection s' = ts ++ [t]
       ∧ attachment t = "assets/" +:+ file_name up
       ∧ assets s' !! attachment t = Some (file_bytes up)
       ∧ ∀ path, path ≠ attachment t -> assets s' !! path = assets s !! path.
Proof.
  intros Hn Hts s'. subst s'.
  rewrite (run_create tick s ts n d dl p (Some up) Hn Hts).
  cbn [final_state]. eexists. split_and!.
  - reflexivity.
  - reflexivity.
  - cbn. apply lookup_insert_eq.
  - intros path Hpath. cbn. by apply lookup_insert_ne.
Qed.

Lemma upload_stored_witness :
  let up := {| file_name := "notes.pdf"; file_bytes := [x25; x50; x44; x46] |} in
  let s' := final_state
              (run sample_tick (create "Read notes" "" 20200 0 (Some up))
                 sample_state) in
  ∃ t, collection s' = sample_tasks ++ [t]
       ∧ attachment t = "assets/notes.pdf"
       ∧ assets s' !! attachment t = Some [x25; x50; x44; x46].
Proof.
  intros up s'.
  destruct (upload_stored sample_tick sample_state sample_tasks
              "Read notes" "" 20200 0 up) as (t & H1 & H2 & H3 & _);
    [done|reflexivity|].
  exists t. split_and!; [exact H1|exact H2|exact H3].
Defined.

(** X6. Uploads are keyed by file name alone: two tasks created with
    files of the same name get the same attachment path, and the path
    holds the bytes of the second upload. *)
Theorem upload_same_name_overwrites (tick : nat -> datetime) (s : state)
    (ts : list Task) (n1 d1 n2 d2 : string) (dl1 dl2 : date) (p1 p2 : nat)
    (up1 up2 : upload) :
  n1 ≠ "" -> n2 ≠ "" ->
  stored s = Some ts ->
  file_name up1 = file_name up2 ->
  let s1 := final_state (run tick (create n1 d1 dl1 p1 (Some up1)) s) in
  let s2 := final_state (run tick (create n2 d2 dl2 p2 (Some up2)) s1) in
  ∃ t1 t2, collection s2 = ts ++ [t1; t2]
           ∧ name t1 = n1 ∧ name t2 = n2
           ∧ attachment t1 = attachment t2
           ∧ assets s2 !! attachment t1 = Some (file_bytes up2).
Proof.
  intros Hn1 Hn2 Hts Hname s1 s2. subst s1 s2.
  rewrite (run_create tick s ts n1 d1 dl1 p1 (Some up1) Hn1 Hts).
  cbn [final_state].
  erewrite run_create; [|done|reflexivity]. cbn [final_state].
  eexists _, _. split_and!.
  - unfold collection, stored. cbn. by rewrite <- app_assoc.
  - reflexivity.
  - reflexivity.
  - cbn. by rewrite Hname.
  - cbn. rewrite Hname. apply lookup_insert_eq.
Qed.

Lemma upload_same_name_overwrites_witness :
  let up1 := {| file_name := "notes.pdf"; file_bytes := [x01] |} in
  let up2 := {| file_name := "notes.pdf"; file_bytes := [x02] |} in
  let s1 := final_state
              (run sample_tick (create "A" "" 20200 0 (Some up1)) initial) in
  let s2 := final_state
              (run sample_tick (create "B" "" 20200 0 (Some up2)) s1) in
  ∃ t1 t2, collection s2 = [t1; t2]
           ∧ attachment t1 = attachment t2
           ∧ assets s2 !! attachment t1 = Some [x02].
Proof.
  intros up1 up2 s1 s2.
  destruct (upload_same_name_overwrites sample_tick initial []
              "A" "" "B" "" 20200 20200 0 0 up1 up2)
    as (t1 & t2 & H1 & _ & _ & H2 & H3); [done|done|reflexivity|reflexivity|].
  exists t1, t2. split_and!; [exact H1|exact H2|exact H3].
Defined.

(** X7. No run removes or alters a stored upload, except that a create
    with an upload rewrites the path of that upload: every other path
    keeps its content, and a path that held a file still holds one.  In
    particular deleting a task leaves its attachment on disk. *)
Theorem uploads_kept (tick : nat -> datetime) (ui : frontend) (s : state)
    (path : string) :
  let s' := final_state (run tick ui s) in
  (path ≠ upload_path (task_form ui) -> assets s' !! path = assets s !! path)
  ∧ (is_Some (assets s !! path) -> is_Some (assets s' !! path))
  ∧ (form_submitted (task_form ui) = false -> assets s' = assets s).
Proof.
  intros s'. subst s'.
  destruct (stored s) as [ts|] eqn:Hts.
  - destruct (run_cases tick ui s ts Hts) as [_ [H|[H|H]]].
    + injection H as _ ->. done.
    + destruct H as (_ & Hsub & _ & _ & -> & _). unfold uploaded, upload_path.
      destruct (form_file (task_form ui)) as [up|]; [|by rewrite Hsub].
      split_and!.
      * intros Hne. by apply lookup_insert_ne.
      * intros Hsome. rewrite lookup_insert_is_Some.
        destruct (decide ("assets/" +:+ file_name up = path)); auto.
      * by rewrite Hsub.
    + destruct H as (_ & -> & _). done.
  - rewrite run_malformed by done. done.
Qed.

Lemma uploads_kept_witness :
  let s := with_asset "assets/notes.pdf" [] sample_state in
  let s' := final_state (run sample_tick (delete_task 1736400000000002) s) in
  is_Some (assets s !! "assets/notes.pdf")
  ∧ collection s' = take 1 sample_tasks
  ∧ is_Some (assets s' !! "assets/notes.pdf").
Proof.
  intros s s'.
  assert (is_Some (assets s !! "assets/notes.pdf")) as H
    by (exists []; reflexivity).
  split_and!; [exact H|reflexivity|].
  exact (proj1 (proj2 (uploads_kept sample_tick
                         (delete_task 1736400000000002) s
                         "assets/notes.pdf")) H).
Defined.

(** ** What a single run can change *)

(** X8. A run makes at most one change to the list, whatever the front end
    holds: it leaves the list as it is, or puts one new "To Do" task with
    a name at its end, or replaces the task at one position by a task with
    the same id, creation date and attachment, or takes one task out. *)
Theorem run_changes_one (tick : nat -> datetime) (ui : frontend) (s : state)
    (ts : list Task) :
  stored s = Some ts ->
  let ts' := collection (final_state (run tick ui s)) in
  ts' = ts
  ∨ (∃ t, ts' = ts ++ [t] ∧ status t = "To Do" ∧ name t ≠ "")
  ∨ (∃ i t t', ts !! i = Some t ∧ ts' = <[i := t']> ts
               ∧ id t' = id t ∧ created t' = created t
               ∧ attachment t' = attachment t)
  ∨ (∃ l1 t l2, ts = l1 ++ (t :: l2) ∧ ts' = l1 ++ l2).
Proof.
  intros Hts ts'. subst ts'. unfold collection.
  destruct (run_cases tick ui s ts Hts) as [_ [H|[H|H]]].
  - left. by rewrite (stored_of_files _ _ H), Hts.
  - destruct H as (_ & _ & Hname & Hjson & _).
    right. left. unfold stored. rewrite Hjson. cbn.
    eexists. split_and!; [reflexivity|reflexivity|done].
  - destruct H as (_ & _ & ts' & Hjson & Hstep).
    unfold stored. rewrite Hjson. cbn.
    destruct Hstep as [j t n d dl p Hj _ _ _ _|j t k v Hj _ _ _|t ts' Ht _ Hrem].
    + right. right. left. eexists j, t, _. by split_and!.
    + right. right. left. eexists j, t, _. by split_and!.
    + right. right. right.
      apply list_remove_Some in Hrem as (l1 & l2 & -> & _ & ->).
      by exists l1, t, l2.
Qed.

Lemma run_changes_one_witness :
  let ts' := collection
               (final_state
                  (run sample_tick
                     {| task_form := task_form (create "Third" "" 20200 0 None);
                        widgets := widgets (setStatus 1736400000000001 2) |}
                     sample_state)) in
  ts' = sample_tasks
  ∨ (∃ t, ts' = sample_tasks ++ [t] ∧ status t = "To Do" ∧ name t ≠ "")
  ∨ (∃ i t t', sample_tasks !! i = Some t ∧ ts' = <[i := t']> sample_tasks
               ∧ id t' = id t ∧ created t' = created t
               ∧ attachment t' = attachment t)
  ∨ (∃ l1 t l2, sample_tasks = l1 ++ (t :: l2) ∧ ts' = l1 ++ l2).
Proof.
  exact (run_changes_one sample_tick _ sample_state sample_tasks eq_refl).
Defined.

(** ** The status box, lines 153-157 *)

(** X9. Choosing another status for a task (ids distinct, the task shown
    on the board) writes that status into the task, leaves its other fields
    and every other task as they were, saves and asks for a rerun; choosing
    the status the task has does nothing: nothing is saved and the run goes
    on to its end. *)
Theorem setStatus_spec (tick : nat -> datetime) (s : state)
    (tasks : list Task) (j : nat) (t : Task) (k : nat) (v : string) :
  stored s = Some tasks ->
  NoDup (id <$> tasks) ->
  tasks !! j = Some t ->
  status t ∈ status_names ->
  status_names !! k = Some v ->
  let o := run tick (setStatus (id t) k) s in
  (v ≠ status t ->
   stopped o = Some Rerun
   ∧ stored (final_state o) = Some (<[j := set_status v t]> tasks)
   ∧ assets (final_state o) = assets s)
  ∧ (v = status t -> stopped o = None ∧ files (final_state o) = files s).
Proof.
  intros Hts Hnd Hj Hst Hk o. subst o.
  pose proof (run_setStatus tick s tasks j t k Hts Hnd Hj Hst) as H.
  cbv zeta in H. rewrite Hk in H. cbn [default] in H.
  destruct (run tick (setStatus (id t) k) s) as [[] s'|h s'];
    cbn [stopped final_state].
  - destruct H as [Hv Hf]. split; [done|]. by intros _.
  - destruct H as (-> & Hv & Hf). split; [|done]. intros _.
    split_and!; [done|by eapply stored_encodes|by injection Hf].
Qed.

Lemma setStatus_spec_witness :
  let o := run sample_tick (setStatus 1736400000000002 2) sample_state in
  stopped o = Some Rerun
  ∧ status <$> collection (final_state o) = ["To Do"; "Done"].
Proof.
  intros o.
  destruct (setStatus_spec sample_tick sample_state sample_tasks 1
              {| id := 1736400000000002; name := "Review";
                 description := "second pass"; deadline := ISO 20210;
                 created := ISO 20097; status := "In Progress";
                 priority := "Low"; attachment := "assets/notes.pdf" |}
              2 "Done") as [H _];
    [reflexivity|compute_done|reflexivity|compute_done|reflexivity|].
  destruct H as (H1 & H2 & _); [done|].
  split; [exact H1|].
  apply (f_equal (λ o, status <$> default [] o)) in H2. exact H2.
Defined.

(** ** The edit form, lines 138-151 *)



(** ** The columns of the board, lines 105-111 *)



(** ** A file that cannot be read, lines 27-30 and 55 *)

(** X12. Once [tasks.json] cannot be decoded, no sequence of runs gets
    past line 55: whatever is done in the front end, the file and the
    uploads stay as they are. *)
Theorem malformed_stays (tick : nat -> datetime) (uis : list frontend)
    (s : state) :
  stored s = None ->
  files (runs tick uis s) = files s ∧ stored (runs tick uis s) = None.
Proof.
  revert s. induction uis as [|ui uis IH]; intros s Hs; [done|].
  cbn [runs foldl]. rewrite run_malformed by done. cbn [final_state].
  apply (IH (fresh s) Hs).
Qed.

Lemma malformed_stays_witness :
  let s := {| tasks_json := Some Malformed; assets := ∅; reads := 0;
              registry := ∅; page := [] |} in
  let uis := [create "A" "" 20200 0 None; delete_task 5; idle] in
  files (runs sample_tick uis s) = files s
  ∧ stored (runs sample_tick uis s) = None.
Proof.
  intros s uis. apply (malformed_stays sample_tick uis s). reflexivity.
Defined.

(** ** The board and the keys of its widgets, lines 107-163 *)

Lemma render_task_duplicate ui tasks i column t s :
  ("edit", id t) ∈ registry s ->
  render_task ui tasks i column t s
  = Halt (Raised DuplicateWidgetID)
      (with_element (Card (color_by_priority (priority t)) t) s).
Proof.
  intros Hin. unfold render_task.
  rewrite bind_unfold. cbn [emit].
  rewrite bind_unfold. unfold st_checkbox at 1.
  rewrite bind_unfold. unfold register at 1.
  by rewrite decide_True.
Qed.

Lemma regs_of_equiv R R' s :
  (∀ i, i ∈ R ↔ i ∈ R') -> regs_of R s -> regs_of R' s.
Proof.
  intros HR [H1 H2]. split.
  - intros k Hk. apply HR. by apply H1.
  - intros i Hi. apply H2. by apply HR.
Qed.

Lemma regs_of_shown R t s : regs_of R s -> regs_of (id t :: R) (shown t s).
Proof.
  intros [H1 H2]. split.
  - intros k. unfold shown. cbn.
    rewrite !elem_of_union, !elem_of_singleton, elem_of_cons.
    intros [-> | [-> | [-> | Hk]]]; cbn; auto.
  - intros i. rewrite elem_of_cons. unfold shown. cbn.
    rewrite !elem_of_union, !elem_of_singleton.
    intros [-> | Hi]; auto.
Qed.

Lemma fresh_ids_cons x L R :
  fresh_ids (x :: L) R ↔ (id x ∉ R) ∧ fresh_ids L (id x :: R).
Proof.
  unfold fresh_ids. rewrite fmap_cons, NoDup_cons, Forall_cons.
  rewrite !Forall_forall. split.
  - intros [[Hx Hnd] [HxR HL]]. split_and!; [done|done|].
    intros t Ht. rewrite not_elem_of_cons. split; [|by apply HL].
    intros Heq. apply Hx. rewrite <- Heq. by apply list_elem_of_fmap_2.
  - intros [HxR [Hnd HL]]. split_and!; [|done|done|].
    + intros Hx. apply list_elem_of_fmap in Hx as (t & Heq & Ht).
      specialize (HL t Ht). rewrite not_elem_of_cons in HL.
      destruct HL as [HL _]. by apply HL.
    + intros t Ht. specialize (HL t Ht). rewrite not_elem_of_cons in HL.
      tauto.
Qed.

Lemma fresh_ids_app L1 L2 R :
  fresh_ids (L1 ++ L2) R ↔ fresh_ids L1 R ∧ fresh_ids L2 ((id <$> L1) ++ R).
Proof.
  revert R. induction L1 as [|x L1 IH]; intros R; cbn.
  - unfold fresh_ids at 2. cbn. rewrite NoDup_nil, Forall_nil. tauto.
  - rewrite !fresh_ids_cons, IH. split.
    + intros (Hx & H1 & H2). split_and!; [done|done|].
      destruct H2 as [Hnd HL]. split; [done|].
      eapply Forall_impl; [exact HL|]. intros t. cbn. intros H Hin.
      apply H. rewrite elem_of_cons, elem_of_app in Hin.
      rewrite elem_of_app, elem_of_cons. tauto.
    + intros ((Hx & H1) & H2). split_and!; [done|done|].
      destruct H2 as [Hnd HL]. split; [done|].
      eapply Forall_impl; [exact HL|]. intros t. cbn. intros H Hin.
      apply H. rewrite elem_of_app, elem_of_cons in Hin.
      rewrite elem_of_cons, elem_of_app. tauto.
Qed.

Section Keys.

Variable ui : frontend.
Variable tasks : list Task.

Hypothesis Hun : ∀ t, t ∈ tasks -> status t ∈ status_names -> untouched ui (id t).

(** One column: it is drawn to its end when the ids of its tasks are new,
    and stops at the first id that is not. *)
Lemma column_keys column :
  column ∈ status_names ->
  ∀ todo done R s,
    tasks = done ++ todo ->
    regs_of R s ->
    let L := filter (λ t, status t = column) todo in
    let loop := for_each (enumerate_from (length done) todo) (λ '(i, t),
                  if bool_decide (status t = column)
                  then render_task ui tasks i column t else mret tt) in
    (fresh_ids L R ->
     ∃ s', loop s = Ret tt s' ∧ files s' = files s
           ∧ page s' = page s
                       ++ ((λ t, Card (color_by_priority (priority t)) t) <$> L)
           ∧ regs_of ((id <$> L) ++ R) s')
    ∧ (¬ fresh_ids L R ->
       ∃ s', loop s = Halt (Raised DuplicateWidgetID) s'
             ∧ files s' = files s).
Proof.
  intros Hcol. induction todo as [|x todo IH]; intros done R s Htasks Hregs.
  - cbn. split.
    + intros _. exists s. rewrite app_nil_r. done.
    + intros H. exfalso. apply H. split; [apply NoDup_nil_2|done].
  - cbn zeta. cbn [enumerate_from for_each].
    assert (tasks = (done ++ [x]) ++ todo) as Htasks'
      by by rewrite <- app_assoc.
    specialize (IH (done ++ [x])).
    rewrite length_app, Nat.add_1_r in IH.
    destruct (decide (status x = column)) as [Hc|Hc].
    + rewrite filter_cons_True by done. rewrite bind_unfold.
      rewrite bool_decide_eq_true_2 by done.
      destruct (decide (id x ∈ R)) as [HxR|HxR].
      * rewrite render_task_duplicate by (by apply Hregs). split.
        -- intros Hf. apply fresh_ids_cons in Hf as [Hf _]. done.
        -- intros _. eexists. split; reflexivity.
      * assert (x ∈ tasks) as Hx.
        { rewrite Htasks. apply elem_of_app. right. apply list_elem_of_here. }
        rewrite render_task_untouched.
        2:{ apply Hun; [done|]. by rewrite Hc. }
        2:{ done. }
        2:{ intros pfx Hin. apply HxR. by apply (proj1 Hregs _ Hin). }
        destruct (IH (id x :: R) (shown x s) Htasks' (regs_of_shown R x s Hregs))
          as [IHa IHb].
        split.
        -- intros Hf. apply fresh_ids_cons in Hf as [_ Hf].
           destruct (IHa Hf) as (s' & Hrun & Hfiles & Hpage & Hregs').
           exists s'. split_and!; [done|done| |].
           ++ rewrite Hpage. unfold shown. cbn.
              by rewrite <- app_assoc.
           ++ eapply regs_of_equiv; [|exact Hregs']. intros i.
              rewrite fmap_cons. cbn.
              rewrite !elem_of_app, !elem_of_cons, !elem_of_app. tauto.
        -- intros Hf.
           destruct IHb as (s' & Hrun & Hfiles).
           { intros Hf'. apply Hf. apply fresh_ids_cons. done. }
           by exists s'.
    + rewrite filter_cons_False by done. rewrite bind_unfold.
      rewrite bool_decide_eq_false_2 by done.
      apply (IH R s Htasks' Hregs).
Qed.

Lemma columns_keys :
  ∀ cols R s,
    (∀ c, c ∈ cols -> c ∈ status_names) ->
    regs_of R s ->
    let L := concat ((λ c, filter (λ t, status t = c) tasks) <$> cols) in
    (fresh_ids L R ->
     ∃ s', for_each cols (board_column ui tasks) s = Ret tt s'
           ∧ files s' = files s
           ∧ page s' = page s ++ concat (column_cards tasks <$> cols)
           ∧ regs_of ((id <$> L) ++ R) s')
    ∧ (¬ fresh_ids L R ->
       ∃ s', for_each cols (board_column ui tasks) s
             = Halt (Raised DuplicateWidgetID) s'
             ∧ files s' = files s).
Proof.
  induction cols as [|c cols IH]; intros R s Hsub Hregs.
  - cbn. split.
    + intros _. exists s. rewrite app_nil_r. done.
    + intros H. exfalso. apply H. split; [apply NoDup_nil_2|done].
  - cbn zeta. cbn [for_each fmap list_fmap concat].
    destruct (column_keys c (Hsub c (list_elem_of_here _ _)) tasks [] R s
                eq_refl Hregs) as [Ca Cb].
    cbn zeta in Ca, Cb. change (length (@nil Task)) with 0%nat in Ca, Cb.
    fold (board_column ui tasks c) in Ca, Cb.
    rewrite bind_unfold.
    destruct (decide (fresh_ids (filter (λ t, status t = c) tasks) R))
      as [Hc|Hc].
    + destruct (Ca Hc) as (s1 & -> & Hf1 & Hp1 & Hr1).
      destruct (IH _ s1 (λ c' Hc', Hsub c' (list_elem_of_further _ _ _ Hc'))
                  Hr1) as [IHa IHb].
      split.
      * intros Hf. apply fresh_ids_app in Hf as [_ Hf].
        destruct (IHa Hf) as (s' & Hrun & Hfiles & Hpage & Hregs').
        exists s'. split_and!; [done|congruence| |].
        -- rewrite Hpage, Hp1. unfold column_cards at 3.
           by rewrite <- app_assoc.
        -- eapply regs_of_equiv; [|exact Hregs']. intros i.
           rewrite fmap_app, !elem_of_app. tauto.
      * intros Hf. destruct IHb as (s' & Hrun & Hfiles).
        { intros Hf'. apply Hf. apply fresh_ids_app. done. }
        exists s'. split; [done|congruence].
    + destruct (Cb Hc) as (s1 & -> & Hf1). split.
      * intros Hf. apply fresh_ids_app in Hf as [Hf _]. done.
      * intros _. by exists s1.
Qed.

End Keys.

Lemma fresh_ids_nil L : fresh_ids L [] ↔ NoDup (id <$> L).
Proof.
  unfold fresh_ids. split; [by intros [? _]|]. intros H. split; [done|].
  apply Forall_forall. intros t _. apply not_elem_of_nil.
Qed.

Lemma regs_of_empty s : registry s = ∅ -> regs_of [] s.
Proof.
  intros H. split.
  - intros k Hk. rewrite H in Hk. by apply not_elem_of_empty in Hk.
  - intros i Hi. by apply elem_of_nil in Hi.
Qed.

Lemma board_cards_columns tasks :
  board_cards tasks
  = column_cards tasks "To Do" ++ column_cards tasks "In Progress"
    ++ column_cards tasks "Done".
Proof. unfold board_cards. cbn. by rewrite app_nil_r. Qed.

Lemma elem_of_column_cards tasks column c t :
  Card c t ∈ column_cards tasks column
  ↔ t ∈ tasks ∧ status t = column ∧ c = color_by_priority (priority t).
Proof.
  unfold column_cards. rewrite list_elem_of_fmap. split.
  - intros (t' & [= -> ->] & Ht'). apply list_elem_of_filter in Ht'. tauto.
  - intros (Ht & Hst & ->). exists t. split; [done|].
    by apply list_elem_of_filter.
Qed.

Lemma elem_of_board_cards tasks c t :
  Card c t ∈ board_cards tasks
  ↔ t ∈ tasks ∧ status t ∈ status_names ∧ c = color_by_priority (priority t).
Proof.
  rewrite board_cards_columns, !elem_of_app, !elem_of_column_cards.
  unfold status_names. rewrite !elem_of_cons, elem_of_nil. intuition.
Qed.

(** X13. With no widget used and the ids of the tasks it draws distinct,
    the board is drawn to its end: the page gets one card per task whose
    status is "To Do", "In Progress" or "Done", the cards of each status
    together and in the order of the list, and no card for any other
    task; no file is changed. *)
Theorem board_draws_columns (ui : frontend) (tasks : list Task) (s : state) :
  (∀ t, t ∈ tasks -> status t ∈ status_names -> untouched ui (id t)) ->
  registry s = ∅ ->
  NoDup (id <$> shown_tasks tasks) ->
  ∃ s', board ui tasks s = Ret tt s'
        ∧ files s' = files s
        ∧ page s' = page s ++ board_cards tasks
        ∧ board_cards tasks
          = column_cards tasks "To Do" ++ column_cards tasks "In Progress"
            ++ column_cards tasks "Done"
        ∧ ∀ c t, Card c t ∈ board_cards tasks
                 ↔ t ∈ tasks ∧ status t ∈ status_names
                   ∧ c = color_by_priority (priority t).
Proof.
  intros Hun Hreg Hnd.
  destruct (columns_keys ui tasks Hun status_names [] s (λ c Hc, Hc)
              (regs_of_empty s Hreg)) as [Ha _].
  destruct Ha as (s' & Hrun & Hf & Hp & _); [by apply fresh_ids_nil|].
  exists s'. split_and!; [done|done|done| |].
  - apply board_cards_columns.
  - apply elem_of_board_cards.
Qed.

Lemma board_draws_columns_witness :
  ∃ s', board idle sample_tasks sample_state = Ret tt s'
        ∧ page s' = board_cards sample_tasks.
Proof.
  destruct (board_draws_columns idle sample_tasks sample_state)
    as (s' & H1 & _ & H2 & _); [|reflexivity|compute_done|].
  { intros t _ _ pfx. apply lookup_empty. }
  exists s'. split; [exact H1|exact H2].
Defined.

(** X14. A run in which the form was not sent and no widget of a drawn
    task was used changes no file, and it comes to its end exactly when
    the ids of the tasks the board draws are distinct: with two drawn
    tasks of the same id it stops with [DuplicateWidgetID] at the second
    of them. *)
Theorem shared_id_stops_board (tick : nat -> datetime) (ui : frontend)
    (s : state) (tasks : list Task) :
  stored s = Some tasks ->
  form_submitted (task_form ui) = false ->
  (∀ t, t ∈ tasks -> status t ∈ status_names -> untouched ui (id t)) ->
  let o := run tick ui s in
  files (final_state o) = files s
  ∧ (NoDup (id <$> shown_tasks tasks) -> stopped o = None)
  ∧ (¬ NoDup (id <$> shown_tasks tasks) ->
     stopped o = Some (Raised DuplicateWidgetID)).
Proof.
  intros Hts Hsub Hun o. subst o. unfold run. rewrite app_unfold.
  rewrite (load_tasks_stored (fresh s) tasks) by done.
  rewrite sidebar_idle by done.
  rewrite bind_unfold. cbn [emit]. rewrite bind_unfold.
  destruct (metrics_Ret tasks
              (with_element (Calendar (calendar_events tasks))
                 (with_read (fresh s)))) as (s1 & -> & Hf1 & Hr1).
  rewrite bind_unfold.
  destruct (columns_keys ui tasks Hun status_names [] s1 (λ c Hc, Hc)
              (regs_of_empty s1 Hr1)) as [Ha Hb].
  cbn zeta in Ha, Hb. fold (shown_tasks tasks) in Ha, Hb.
  fold (board ui tasks) in Ha, Hb.
  destruct (decide (NoDup (id <$> shown_tasks tasks))) as [Hnd|Hnd].
  - destruct Ha as (s2 & -> & Hf2 & _); [by apply fresh_ids_nil|].
    destruct (deadline_warnings_Ret tick tasks s2) as (s3 & -> & Hf3).
    split_and!; [|done|done].
    cbn [final_state]. by rewrite Hf3, Hf2, Hf1.
  - destruct Hb as (s2 & -> & Hf2); [by rewrite fresh_ids_nil|].
    split_and!; [|done|done].
    cbn [final_state]. by rewrite Hf2, Hf1.
Qed.

Lemma shared_id_stops_board_witness :
  let t1 := {| id := 5; name := "A"; description := "";
               deadline := ISO 20200; created := ISO 20097;
               status := "To Do"; priority := "Low"; attachment := "" |} in
  let t2 := {| id := 5; name := "B"; description := "";
               deadline := ISO 20200; created := ISO 20097;
               status := "Done"; priority := "Low"; attachment := "" |} in
  let s := {| tasks_json := Some (Encodes [t1; t2]); assets := ∅; reads := 0;
              registry := ∅; page := [] |} in
  stopped (run sample_tick idle s) = Some (Raised DuplicateWidgetID)
  ∧ files (final_state (run sample_tick idle s)) = files s.
Proof.
  intros t1 t2 s.
  destruct (shared_id_stops_board sample_tick idle s [t1; t2])
    as (H1 & _ & H2); [reflexivity|reflexivity| |].
  { intros t _ _ pfx. apply lookup_empty. }
  split; [|exact H1]. apply H2. compute_done.
Defined.

(** ** Which handler acts, lines 67-76 and 144-163 *)

(** X15. A form sent with a name is acted on before the board is drawn:
    the run is the run of the create alone, whatever the widgets of the
    board hold, so no edit, status change or deletion happens in it. *)
Theorem create_takes_precedence (tick : nat -> datetime) (ui : frontend)
    (s : state) :
  form_submitted (task_form ui) = true ->
  form_name (task_form ui) ≠ "" ->
  run tick ui s = run tick {| task_form := task_form ui; widgets := ∅ |} s.
Proof.
  intros Hsub Hname. unfold run. rewrite !app_unfold.
  destruct (load_tasks (fresh s)) as [tasks s1|h s1]; [|done].
  by rewrite !sidebar_create.
Qed.

Lemma create_takes_precedence_witness :
  let ui := {| task_form := task_form (create "Third" "" 20200 0 None);
               widgets := widgets (delete_task 1736400000000001) |} in
  run sample_tick ui sample_state
  = run sample_tick (create "Third" "" 20200 0 None) sample_state.
Proof.
  intros ui.
  apply (create_takes_precedence sample_tick ui sample_state);
    [reflexivity|done].
Defined.

Lemma render_task_status_first ui tasks i t k v s :
  widgets ui !! ("edit", id t) = None ->
  widgets ui !! ("status", id t) = Some (WIndex k) ->
  status_names !! k = Some v ->
  v ≠ status t ->
  status t ∈ status_names ->
  (∀ pfx, (pfx, id t) ∉ registry s) ->
  ∃ s', files s' = files s
        ∧ render_task ui tasks i (status t) t s
          = Halt Rerun
              (with_tasks_json (Some (Encodes (<[i := set_status v t]> tasks)))
                 s').
Proof.
  intros Hedit Hstatus Hk Hv Hcol Hfresh. unfold render_task.
  rewrite bind_unfold. cbn [emit].
  rewrite bind_unfold, st_checkbox_fresh by apply Hfresh.
  rewrite Hedit.
  rewrite bind_unfold. cbn [mret M_ret ret].
  rewrite bind_unfold.
  match goal with |- context [index_of _ _ ?s0] =>
    destruct (index_of_elem (status t) status_names s0 Hcol)
      as (idx & -> & Hidx) end.
  rewrite bind_unfold, st_selectbox_fresh by fresh_key Hfresh.
  rewrite Hstatus, (select_Some_default _ _ _ _ Hidx), Hk. cbn [default].
  rewrite bind_unfold, bool_decide_eq_true_2 by done.
  eexists. split; [|reflexivity]. reflexivity.
Qed.

(** X16. On one card the handlers act in the order of the script and the
    first one that acts ends the run: with "Delete Task" pressed, a saved
    edit form still saves the edited task, and, the edit box not ticked, a
    newly chosen status is still stored; in both cases the task stays in
    the list. *)
Theorem card_precedence (tick : nat -> datetime) (ui : frontend) (s : state)
    (tasks : list Task) (j : nat) (t : Task) :
  stored s = Some tasks ->
  NoDup (id <$> tasks) ->
  tasks !! j = Some t ->
  status t ∈ status_names ->
  priority t ∈ priority_names ->
  form_submitted (task_form ui) = false ->
  (∀ i, i ≠ id t -> untouched ui i) ->
  widgets ui !! ("delete", id t) = Some (WBool true) ->
  let o := run tick ui s in
  (widgets ui !! ("edit", id t) = Some (WBool true) ->
   widgets ui !! ("save", id t) = Some (WBool true) ->
   stopped o = Some Rerun
   ∧ stored (final_state o) = Some (<[j := edited ui t]> tasks))
  ∧ (∀ k v, widgets ui !! ("edit", id t) = None ->
            widgets ui !! ("status", id t) = Some (WIndex k) ->
            status_names !! k = Some v -> v ≠ status t ->
            stopped o = Some Rerun
            ∧ stored (final_state o) = Some (<[j := set_status v t]> tasks)).
Proof.
  intros Hts Hnd Hj Hst Hp Hsub Hun Hdel o. subst o. split.
  - intros Hedit Hsave.
    set (E := λ (h : stop) (s' : state),
           h = Rerun
           ∧ tasks_json s' = Some (Encodes (<[j := edited ui t]> tasks))).
    assert (hoare (λ s', files s' = files s ∧ registry s' = ∅)
              (board ui tasks) (λ _ s', files s' = files s ∧ False) E) as Hb.
    { apply (board_target _ _ _ _ _ j t); try done.
      intros s0 Hf0 Hfresh.
      destruct (render_task_save ui tasks j (status t) t s0 Hedit Hsave Hfresh)
        as (s1 & Hf1 & ->).
      rewrite decide_True by done. by split. }
    pose proof (run_board tick ui s tasks (λ _, False) E Hts Hsub Hb) as H.
    destruct (run tick ui s) as [[] s'|h s'].
    + destruct H as [_ [_ []]]; done.
    + destruct H as [-> Hf]; try done. cbn. unfold stored. by rewrite Hf.
  - intros k v Hedit Hstatus Hk Hv.
    set (E := λ (h : stop) (s' : state),
           h = Rerun
           ∧ tasks_json s' = Some (Encodes (<[j := set_status v t]> tasks))).
    assert (hoare (λ s', files s' = files s ∧ registry s' = ∅)
              (board ui tasks) (λ _ s', files s' = files s ∧ False) E) as Hb.
    { apply (board_target _ _ _ _ _ j t); try done.
      intros s0 Hf0 Hfresh.
      destruct (render_task_status_first ui tasks j t k v s0
                  Hedit Hstatus Hk Hv Hst Hfresh) as (s1 & Hf1 & ->).
      by split. }
    pose proof (run_board tick ui s tasks (λ _, False) E Hts Hsub Hb) as H.
    destruct (run tick ui s) as [[] s'|h s'].
    + destruct H as [_ [_ []]]; done.
    + destruct H as [-> Hf]; try done. cbn. unfold stored. by rewrite Hf.
Qed.

Lemma card_precedence_witness :
  let ui := {| task_form := idle_form;
               widgets := <[("delete", 1736400000000001) := WBool true]>
                            (widgets (setStatus 1736400000000001 2)) |} in
  let o := run sample_tick ui sample_state in
  stopped o = Some Rerun
  ∧ status <$> collection (final_state o) = ["Done"; "In Progress"].
Proof.
  intros ui o.
  destruct (card_precedence sample_tick ui sample_state sample_tasks 0
              {| id := 1736400000000001; name := "Write spec";
                 description := ""; deadline := ISO 20200;
                 created := ISO 20097; status := "To Do";
                 priority := "High"; attachment := "" |}) as [_ H];
    [reflexivity|compute_done|reflexivity|compute_done|compute_done
    |reflexivity| |reflexivity|].
  { intros i Hi pfx. cbn in Hi |- *.
    rewrite lookup_insert_ne by congruence.
    apply lookup_singleton_ne. congruence. }
  destruct (H 2%nat "Done") as [H1 H2]; [reflexivity|reflexivity|reflexivity|done|].
  split; [exact H1|].
  apply (f_equal (λ o, status <$> default [] o)) in H2. exact H2.
Defined.

(** X17. Saving an edit form in which nothing was changed stores the list
    as it was: the deadline shown in the form is the deadline of the task,
    and so are the other three fields. *)
Theorem save_unchanged_form (tick : nat -> datetime) (s : state)
    (tasks : list Task) (j : nat) (t : Task) :
  stored s = Some tasks ->
  NoDup (id <$> tasks) ->
  tasks !! j = Some t ->
  status t ∈ status_names ->
  priority t ∈ priority_names ->
  let o := run tick (update (id t) None None None None) s in
  stopped o = Some Rerun
  ∧ stored (final_state o) = Some tasks
  ∧ assets (final_state o) = assets s.
Proof.
  intros Hts Hnd Hj Hst Hp o. subst o.
  destruct (run_update tick s tasks j t None None None None Hts Hnd Hj Hst)
    as (s' & Hf & Hrun).
  rewrite decide_True in Hf by done.
  rewrite decide_True in Hrun by done.
  rewrite Hrun. cbn [stopped final_state].
  rewrite edited_update in Hf. cbn in Hf.
  assert ({| id := id t; name := name t; description := description t;
             deadline := deadline t; created := created t;
             status := status t; priority := priority t;
             attachment := attachment t |} = t) as Heta by by destruct t.
  rewrite Heta, list_insert_id in Hf by done.
  injection Hf as Hf Ha. unfold stored. by rewrite Hf.
Qed.

Lemma save_unchanged_form_witness :
  let o := run sample_tick
             (update 1736400000000002 None None None None) sample_state in
  stopped o = Some Rerun ∧ stored (final_state o) = Some sample_tasks.
Proof.
  intros o.
  destruct (save_unchanged_form sample_tick sample_state sample_tasks 1
              {| id := 1736400000000002; name := "Review";
                 description := "second pass"; deadline := ISO 20210;
                 created := ISO 20097; status := "In Progress";
                 priority := "Low"; attachment := "assets/notes.pdf" |})
    as (H1 & H2 & _);
    [reflexivity|compute_done|reflexivity|compute_done|compute_done|].
  split; [exact H1|exact H2].
Defined.

(** ** The empty list, lines 27-31 and 95-100 *)

(** X18. With no task stored, a run in which the form was not sent draws
    an empty calendar and the hint "No tasks available yet. Add one from
    the sidebar.", and nothing else; it comes to its end and creates no
    file. *)
Theorem empty_board (tick : nat -> datetime) (ui : frontend) (s : state) :
  stored s = Some [] ->
  form_submitted (task_form ui) = false ->
  let o := run tick ui s in
  stopped o = None
  ∧ page (final_state o)
    = [Calendar []; Info "No tasks available yet. Add one from the sidebar."]
  ∧ files (final_state o) = files s.
Proof.
  intros Hts Hsub o. subst o. unfold run. rewrite app_unfold.
  rewrite (load_tasks_stored (fresh s) []) by done.
  rewrite sidebar_idle by done. done.
Qed.

Lemma empty_board_witness :
  let o := run sample_tick (delete_task 5) initial in
  stopped o = None
  ∧ page (final_state o)
    = [Calendar []; Info "No tasks available yet. Add one from the sidebar."]
  ∧ tasks_json (final_state o) = None.
Proof.
  intros o.
  destruct (empty_board sample_tick (delete_task 5) initial)
    as (H1 & H2 & H3); [reflexivity|reflexivity|].
  split_and!; [exact H1|exact H2|].
  apply (f_equal fst) in H3. exact H3.
Defined.

(** * firebase_utils.py *)

Lemma get_firestore_empty fb :
  apps fb = ∅ ->
  get_firestore fb
  = match credentials_file fb with
    | None => (inl IOError, fb)
    | Some None => (inl Value_Error, fb)
    | Some (Some cert) =>
        (inr cert, with_apps (<[default_app_name := cert]> ∅) fb)
    end.
Proof.
  intros He. unfold get_firestore, Certificate, initialize_app, client.
  rewrite decide_True by done.
  destruct (credentials_file fb) as [[cert|]|]; [|done|done].
  rewrite He, lookup_empty. cbn. by rewrite lookup_insert_eq.
Qed.

Lemma get_firestore_nonempty fb :
  apps fb ≠ ∅ -> get_firestore fb = (client fb, fb).
Proof. intros He. unfold get_firestore. by rewrite decide_False. Qed.

(** X19. [get_firestore] initialises the app at most once: after a call
    that returned a client, every later call returns the same client,
    registers nothing and does not look at the credentials file, whatever
    has become of it. *)
Theorem get_firestore_once (fb fb1 : firebase) (c : string)
    (f : option (option string)) :
  get_firestore fb = (inr c, fb1) ->
  get_firestore (with_credentials_file f fb1)
  = (inr c, with_credentials_file f fb1)
  ∧ apps fb1 !! default_app_name = Some c.
Proof.
  intros H.
  assert (apps fb1 !! default_app_name = Some c) as Hc.
  { destruct (decide (apps fb = ∅)) as [He|He].
    - rewrite get_firestore_empty in H by done.
      destruct (credentials_file fb) as [[cert|]|]; simplify_eq.
      cbn. apply lookup_insert_eq.
    - rewrite get_firestore_nonempty in H by done. unfold client in H.
      destruct (apps fb !! default_app_name) eqn:E; by simplify_eq. }
  split; [|done].
  rewrite get_firestore_nonempty.
  - unfold client. cbn. by rewrite Hc.
  - cbn. intros He. by rewrite He, lookup_empty in Hc.
Qed.

Lemma get_firestore_once_witness :
  let fb := {| apps := ∅; credentials_file := Some (Some "service-account") |} in
  let fb1 := (get_firestore fb).2 in
  get_firestore fb = (inr "service-account", fb1)
  ∧ get_firestore (with_credentials_file None fb1)
    = (inr "service-account", with_credentials_file None fb1).
Proof.
  intros fb fb1.
  assert (get_firestore fb = (inr "service-account", fb1)) as H
    by reflexivity.
  split; [exact H|].
  exact (proj1 (get_firestore_once fb fb1 "service-account" None H)).
Defined.


